(** * Geopolitical market analyser: thresholds, summaries and fetch handling

  A shallow embedding of the computational parts of the React pages
  ([Dashboard], [RiskAssessment], [MarketImpact], [RealTimeAnalysis],
  [HistoricalAnalysis]) together with the scoring engine that the
  repository documents but does not ship in its front end.

  Number model.  The pages receive their numbers as JSON decimals and
  only compare them with decimal literals ([<], [>], [>=]) or add and
  divide them.  A JavaScript number is therefore embedded as a rational
  [Q]: a decimal literal denotes its rational value and the comparison
  operators are the order of the rationals.  Division is the one
  operation that leaves the finite numbers, so it is embedded as a
  partial operation ([Num.div]).

  Sums and quotients are those of the rationals.  The pages compute them
  in binary64, which gives the same results on the figures the tables
  hold, whole non-negative counts with a total far below 2^53, and may
  round otherwise; the statements about sums and means of non-empty
  tables carry that domain as a hypothesis ([Exact.wholeColumn]). *)

From Stdlib Require Import QArith Qabs Qround Lqa Lia ZArith List String.
From stdpp Require Import base option gmap strings.
Import ListNotations.

Open Scope Q_scope.

(** ** JavaScript comparison operators on finite numbers *)

Module Num.

(** [a < b] *)
Definition ltb (a b : Q) : bool := negb (Qle_bool b a).
(** [a > b] *)
Definition gtb (a b : Q) : bool := ltb b a.
(** [a >= b] *)
Definition geb (a b : Q) : bool := Qle_bool b a.

(** [a / b]: [None] stands for the non-finite results ([NaN],
    [Infinity]) that JavaScript produces for a zero divisor. *)
Definition div (a b : Q) : option Q :=
  if Qeq_bool b 0 then None else Some (a / b).

(** [Math.round]: the nearest integer, halves rounded up. *)
Definition round (x : Q) : Z := Qfloor (x + 0.5).

(** [xs.length] as a number. *)
Definition len {A} (xs : list A) : Q := inject_Z (Z.of_nat (length xs)).

End Num.

Declare Scope js_scope.
Delimit Scope js_scope with js.
Infix "<?" := Num.ltb (at level 70, no associativity) : js_scope.
Infix ">?" := Num.gtb (at level 70, no associativity) : js_scope.
Infix ">=?" := Num.geb (at level 70, no associativity) : js_scope.
Open Scope js_scope.

(** ** Labels shared by the pages *)

(** The strings ['Low'], ['Medium'], ['High']. *)
Inductive Level := Low | Medium | High.

#[global] Instance Level_eq_dec : EqDecision Level.
Proof. solve_decision. Defined.

(** ** pages/Dashboard.js *)

Module Dashboard.

Inductive TextColor := text_success_600 | text_warning_600 | text_danger_600.

Definition getRiskColor (risk : Q) : TextColor :=
  if risk <? 0.3 then text_success_600
  else if risk <? 0.6 then text_warning_600
  else text_danger_600.

Definition getRiskLevel (risk : Q) : Level :=
  if risk <? 0.3 then Low
  else if risk <? 0.6 then Medium
  else High.

End Dashboard.

(** ** pages/RiskAssessment.js (the second component of src/frontend/src/pages/Settings.js) *)

Module RiskAssessment.

Record RiskEntry := {
  region : string;
  risk : Q;
  factors : list string;
  trend : string
}.

(** The demonstration data installed when the request fails. *)
Definition mockRiskData : list RiskEntry := [
  {| region := "North America"; risk := 0.15;
     factors := ["Trade tensions"; "Political uncertainty"]; trend := "stable" |};
  {| region := "Europe"; risk := 0.25;
     factors := ["Energy security"; "Economic challenges"]; trend := "decreasing" |};
  {| region := "Asia-Pacific"; risk := 0.45;
     factors := ["Territorial disputes"; "Supply chain issues"]; trend := "increasing" |};
  {| region := "Middle East"; risk := 0.75;
     factors := ["Regional conflicts"; "Oil price volatility"]; trend := "increasing" |};
  {| region := "Africa"; risk := 0.35;
     factors := ["Political instability"; "Economic development"]; trend := "stable" |};
  {| region := "Latin America"; risk := 0.30;
     factors := ["Economic policies"; "Social unrest"]; trend := "decreasing" |}
]%string.

Definition getRiskColor (risk : Q) : string :=
  if risk <? 0.3 then "#22c55e"
  else if risk <? 0.6 then "#f59e0b"
  else "#ef4444".

Definition getRiskLevel (risk : Q) : Level :=
  if risk <? 0.3 then Low
  else if risk <? 0.6 then Medium
  else High.

(** The three counters of the "Risk Summary" card. *)
Definition lowRiskRegions (riskData : list RiskEntry) : nat :=
  length (List.filter (fun r => risk r <? 0.3) riskData).

Definition mediumRiskRegions (riskData : list RiskEntry) : nat :=
  length (List.filter (fun r => (risk r >=? 0.3) && (risk r <? 0.6)) riskData).

Definition highRiskRegions (riskData : list RiskEntry) : nat :=
  length (List.filter (fun r => risk r >=? 0.6) riskData).

(** How many entries [getRiskLevel] gives the label [l]. *)
Definition labelled (l : Level) (riskData : list RiskEntry) : nat :=
  length (List.filter (fun r => bool_decide (getRiskLevel (risk r) = l)) riskData).

End RiskAssessment.

(** ** pages/MarketImpact.js *)

Module MarketImpact.

Record ImpactItem := {
  sector : string;
  impact : Q;
  volatility : Q;
  sentiment : Q;
  volume : Q
}.

(** The demonstration data installed when the request fails. *)
Definition mockImpactData : list ImpactItem := [
  {| sector := "Technology"; impact := 0.8; volatility := 0.3; sentiment := 0.7; volume := 1250000 |};
  {| sector := "Energy"; impact := 0.6; volatility := 0.4; sentiment := 0.3; volume := 890000 |};
  {| sector := "Finance"; impact := 0.9; volatility := 0.2; sentiment := 0.6; volume := 2100000 |};
  {| sector := "Healthcare"; impact := 0.4; volatility := 0.1; sentiment := 0.8; volume := 650000 |};
  {| sector := "Manufacturing"; impact := 0.7; volatility := 0.3; sentiment := 0.5; volume := 980000 |};
  {| sector := "Consumer Goods"; impact := 0.5; volatility := 0.2; sentiment := 0.6; volume := 750000 |}
]%string.

Inductive TextColor := text_success_600 | text_warning_600 | text_danger_600.

Definition getImpactColor (impact : Q) : TextColor :=
  if impact >? 0.7 then text_danger_600
  else if impact >? 0.4 then text_warning_600
  else text_success_600.

Definition getImpactLevel (impact : Q) : Level :=
  if impact >? 0.7 then High
  else if impact >? 0.4 then Medium
  else Low.

Definition getSentimentColor (sentiment : Q) : TextColor :=
  if sentiment >? 0.6 then text_success_600
  else if sentiment <? 0.4 then text_danger_600
  else text_warning_600.

(** The texts ['Monitor Closely'], ['Watch for Changes'], ['Stable'] of the
    "Recommendation" cell. *)
Inductive Recommendation := MonitorClosely | Watch | Stable.

(** The inline conditional of the "Recommendation" cell of one item. *)
Definition recommendation (item : ImpactItem) : Recommendation :=
  if impact item >? 0.7 then MonitorClosely
  else if impact item >? 0.4 then Watch
  else Stable.

(** The two lists of the "Investment Recommendations" card. *)
Definition highImpactSectors (impactData : list ImpactItem) : list ImpactItem :=
  List.filter (fun item => impact item >? 0.7) impactData.

Definition stableSectors (impactData : list ImpactItem) : list ImpactItem :=
  List.filter (fun item => impact item <? 0.4) impactData.

End MarketImpact.

(** ** pages/RealTimeAnalysis.js (the first component of src/unnamed/part_002) *)

Module RealTimeAnalysis.

Record NewsItem := {
  id : Z;
  title : string;
  source : string;
  published_at : string;
  summary : string;
  content : string;
  sentiment : Q;
  region : string
}.

Record MarketItem := {
  symbol : string;
  value : Q;
  change : Q;
  timestamp : string
}.

Record Analysis := {
  analysis_summary : string;
  keyInsights : list string;
  recommendations : list string;
  riskLevel : string
}.

(** How an awaited request settles.  The rejection reason is only printed
    on the console and is not part of the model. *)
Inductive Settled (A : Type) := Fulfilled (a : A) | Rejected.
Arguments Fulfilled {A} a.
Arguments Rejected {A}.

(** An axios response; [data] may be missing. *)
Record Response (A : Type) := { data : option A }.
Arguments data {A} r.
Arguments Build_Response {A} data.

(** [Promise.all([p, q])]: fulfilled with both values when both are
    fulfilled, rejected as soon as one is rejected. *)
Definition Promise_all {A B} (p : Settled A) (q : Settled B) : Settled (A * B) :=
  match p, q with
  | Fulfilled a, Fulfilled b => Fulfilled (a, b)
  | _, _ => Rejected
  end.

(** [res.data || []] *)
Definition orEmpty {A} (d : option (list A)) : list A :=
  match d with Some l => l | None => [] end.

Inductive Toast := toast_error (msg : string) | toast_success (msg : string).

(** The component state that the handlers write, with the toasts and the
    console lines they emit (latest first). *)
Record State := {
  news : list NewsItem;
  marketData : list MarketItem;
  analysis : option Analysis;
  loading : bool;
  toasts : list Toast;
  console : list string
}.

Definition initialState : State :=
  {| news := []; marketData := []; analysis := None; loading := false;
     toasts := []; console := [] |}.

Definition setNews (v : list NewsItem) (st : State) : State :=
  {| news := v; marketData := marketData st; analysis := analysis st;
     loading := loading st; toasts := toasts st; console := console st |}.

Definition setMarketData (v : list MarketItem) (st : State) : State :=
  {| news := news st; marketData := v; analysis := analysis st;
     loading := loading st; toasts := toasts st; console := console st |}.

Definition setAnalysis (v : option Analysis) (st : State) : State :=
  {| news := news st; marketData := marketData st; analysis := v;
     loading := loading st; toasts := toasts st; console := console st |}.

Definition setLoading (v : bool) (st : State) : State :=
  {| news := news st; marketData := marketData st; analysis := analysis st;
     loading := v; toasts := toasts st; console := console st |}.

Definition toast (t : Toast) (st : State) : State :=
  {| news := news st; marketData := marketData st; analysis := analysis st;
     loading := loading st; toasts := t :: toasts st; console := console st |}.

Definition console_error (msg : string) (st : State) : State :=
  {| news := news st; marketData := marketData st; analysis := analysis st;
     loading := loading st; toasts := toasts st; console := msg :: console st |}.

Definition mockNews : list NewsItem := [
  {| id := 1;
     title := "New trade agreement between US and EU announced";
     source := "Reuters";
     published_at := "2024-01-15T10:30:00Z";
     summary := "Major breakthrough in transatlantic trade relations...";
     content := "The United States and European Union have announced a new comprehensive trade agreement...";
     sentiment := 0.8;
     region := "North America" |};
  {| id := 2;
     title := "Tensions rise in South China Sea";
     source := "BBC News";
     published_at := "2024-01-15T09:15:00Z";
     summary := "Regional tensions escalate as multiple nations assert territorial claims...";
     content := "Recent developments in the South China Sea have raised concerns...";
     sentiment := -0.6;
     region := "Asia-Pacific" |};
  {| id := 3;
     title := "Energy prices stabilize in European markets";
     source := "Financial Times";
     published_at := "2024-01-15T08:45:00Z";
     summary := "Positive developments in energy supply chains...";
     content := "European energy markets show signs of stabilization...";
     sentiment := 0.4;
     region := "Europe" |}
]%string.

Definition mockMarketData : list MarketItem := [
  {| symbol := "AAPL"; value := 150.25; change := 2.5; timestamp := "2024-01-15T10:00:00Z" |};
  {| symbol := "GOOGL"; value := 2750.80; change := -1.2; timestamp := "2024-01-15T10:00:00Z" |};
  {| symbol := "MSFT"; value := 380.45; change := 1.8; timestamp := "2024-01-15T10:00:00Z" |};
  {| symbol := "XOM"; value := 95.30; change := 0.5; timestamp := "2024-01-15T10:00:00Z" |};
  {| symbol := "JPM"; value := 145.75; change := -0.8; timestamp := "2024-01-15T10:00:00Z" |}
]%string.

Definition mockAnalysis : Analysis :=
  {| analysis_summary := "Current geopolitical landscape shows mixed signals with positive developments in trade relations but ongoing tensions in key regions.";
     keyInsights := [
       "US-EU trade agreement provides stability for technology and finance sectors";
       "South China Sea tensions may impact energy supply chains";
       "European energy market stabilization reduces volatility risks" ];
     recommendations := [
       "Monitor technology sector for trade agreement benefits";
       "Exercise caution in energy investments due to regional tensions";
       "Consider defensive positions in affected regions" ];
     riskLevel := "Medium" |}%string.

(** [fetchData]: [newsReq] and [marketReq] are the ways in which
    [newsAPI.getLatestNews] and [marketAPI.getMarketData] settle.
    The [try] block stores what both requests returned; the [catch] block,
    entered when either request is rejected, installs the demonstration
    data for both; [finally] clears the loading flag. *)
Definition fetchData
    (newsReq : Settled (Response (list NewsItem)))
    (marketReq : Settled (Response (list MarketItem)))
    (st : State) : State :=
  let st := setLoading true st in
  let st :=
    match Promise_all newsReq marketReq with
    | Fulfilled (newsRes, marketRes) =>
        let st := setNews (orEmpty (data newsRes)) st in
        setMarketData (orEmpty (data marketRes)) st
    | Rejected =>
        let st := console_error "Error fetching data:" st in
        let st := toast (toast_error "Failed to fetch real-time data") st in
        let st := setNews mockNews st in
        setMarketData mockMarketData st
    end in
  setLoading false st.

(** [generateAnalysis]: [req] is the way in which
    [analysisAPI.generateAnalysis(news, marketData)] settles. *)
Definition generateAnalysis
    (req : list NewsItem -> list MarketItem -> Settled (Response Analysis))
    (st : State) : State :=
  let st := setLoading true st in
  let st :=
    match req (news st) (marketData st) with
    | Fulfilled response =>
        let st := setAnalysis (data response) st in
        toast (toast_success "AI analysis generated successfully") st
    | Rejected =>
        let st := console_error "Error generating analysis:" st in
        let st := toast (toast_error "Failed to generate AI analysis") st in
        setAnalysis (Some mockAnalysis) st
    end in
  setLoading false st.

Inductive TextColor := text_success_600 | text_danger_600 | text_gray_600.

Definition getSentimentColor (sentiment : Q) : TextColor :=
  if sentiment >? 0.3 then text_success_600
  else if sentiment <? -0.3 then text_danger_600
  else text_gray_600.

Inductive Icon := CheckCircle | AlertTriangle | Clock.

Definition getSentimentIcon (sentiment : Q) : Icon :=
  if sentiment >? 0.3 then CheckCircle
  else if sentiment <? -0.3 then AlertTriangle
  else Clock.

End RealTimeAnalysis.

(** ** pages/HistoricalAnalysis.js (the second component of src/unnamed/part_002) *)

Module HistoricalAnalysis.

(** A row of [historicalData]: the sentiment counts of one day. *)
Record SentimentRow := {
  date : string;
  positive : Q;
  negative : Q;
  neutral : Q;
  total : Q
}.

Definition mockHistoricalData : list SentimentRow := [
  {| date := "2024-01-01"; positive := 65; negative := 20; neutral := 15; total := 100 |};
  {| date := "2024-01-02"; positive := 58; negative := 25; neutral := 17; total := 100 |};
  {| date := "2024-01-03"; positive := 72; negative := 18; neutral := 10; total := 100 |};
  {| date := "2024-01-04"; positive := 45; negative := 35; neutral := 20; total := 100 |};
  {| date := "2024-01-05"; positive := 80; negative := 12; neutral := 8; total := 100 |};
  {| date := "2024-01-06"; positive := 62; negative := 22; neutral := 16; total := 100 |};
  {| date := "2024-01-07"; positive := 55; negative := 28; neutral := 17; total := 100 |}
]%string.

(** [historicalData.reduce((sum, item) => sum + f(item), 0)].  The sum is
    that of the rationals: it is the sum the page computes when the
    figures are whole, non-negative and add up to at most 2^53, where
    binary64 addition does not round. *)
Definition reduceSum (f : SentimentRow -> Q) (historicalData : list SentimentRow) : Q :=
  fold_left (fun sum item => sum + f item) historicalData 0.

(** A rendered percentage: [n + '%'], or the text that [Math.round] of a
    non-finite quotient would give. *)
Inductive Text := Percent (n : Z) | NotANumber.

(** [Math.round(reduce(...) / historicalData.length) + '%'], unguarded.
    The quotient is that of the rationals: for whole, non-negative figures
    with a sum below 2^52 the binary64 quotient lies on the same side of
    every half-integer, so [Math.round] gives the same integer. *)
Definition roundedMean (f : SentimentRow -> Q) (historicalData : list SentimentRow) : Text :=
  match Num.div (reduceSum f historicalData) (Num.len historicalData) with
  | Some q => Percent (Num.round q)
  | None => NotANumber
  end.

(** The three lines of the "News Summary" card. *)
Definition totalArticles (historicalData : list SentimentRow) : Q :=
  if Num.len historicalData >? 0 then reduceSum total historicalData else 0.

Definition positiveText (historicalData : list SentimentRow) : Text :=
  if Num.len historicalData >? 0 then roundedMean positive historicalData
  else Percent 0.

Definition negativeText (historicalData : list SentimentRow) : Text :=
  if Num.len historicalData >? 0 then roundedMean negative historicalData
  else Percent 0.

End HistoricalAnalysis.

(** ** The scoring engine

    The pages only display what the engine computes on the server; the
    engine itself is not among the front-end sources.  Its components
    are embedded from their written description. *)

Module Engine.

Import RealTimeAnalysis.

(** Modelled from the spec: the error taxonomy of the engine, which is not
    in the front-end sources. *)
Inductive Failure := ConfigurationError | ValidationError | DataUnavailableError.

(** Modelled from the spec: what a fallible component of the engine
    returns, a value or one of the failures above. *)
Inductive Result (A : Type) := Ok (a : A) | Fail (e : Failure).
Arguments Ok {A} a.
Arguments Fail {A} e.

(** *** SentimentAggregator *)

(** Modelled from the spec: the three classes that SentimentAggregator
    counts; the aggregator is not in the front-end sources. *)
Inductive Polarity := Positive | Negative | Neutral.

#[global] Instance Polarity_eq_dec : EqDecision Polarity.
Proof. solve_decision. Defined.

(** Modelled from the spec: the class of one item in SentimentAggregator,
    which is not in the front-end sources: sentiment > 0.3 is positive,
    sentiment < -0.3 is negative, anything else is neutral. *)
Definition polarity (sentiment : Q) : Polarity :=
  if sentiment >? 0.3 then Positive
  else if sentiment <? -0.3 then Negative
  else Neutral.

(** Modelled from the spec: the count of the items of one class in
    SentimentAggregator. *)
Definition countPolarity (p : Polarity) (items : list NewsItem) : nat :=
  length (List.filter (fun item => bool_decide (polarity (sentiment item) = p)) items).

(** Modelled from the spec: the sum of the sentiments, the numerator of
    meanSentiment in SentimentAggregator. *)
Definition sumSentiment (items : list NewsItem) : Q :=
  fold_right (fun item acc => sentiment item + acc) 0 items.

(** Modelled from the spec: the output of SentimentAggregator. *)
Record SentimentSummary := {
  positiveShare : Q;
  negativeShare : Q;
  neutralShare : Q;
  meanSentiment : Q
}.

(** Modelled from the spec: SentimentAggregator, which is not in the
    front-end sources.  The shares are the counts of positive, negative
    and neutral items divided by the number of items, the mean is the sum
    of the sentiments divided by it; on empty input every field is 0. *)
Definition SentimentAggregator (items : list NewsItem) : option SentimentSummary :=
  match items with
  | [] =>
      Some {| positiveShare := 0; negativeShare := 0; neutralShare := 0;
              meanSentiment := 0 |}
  | _ :: _ =>
      let n := Num.len items in
      pos ← Num.div (inject_Z (Z.of_nat (countPolarity Positive items))) n;
      neg ← Num.div (inject_Z (Z.of_nat (countPolarity Negative items))) n;
      neu ← Num.div (inject_Z (Z.of_nat (countPolarity Neutral items))) n;
      mean ← Num.div (sumSentiment items) n;
      Some {| positiveShare := pos; negativeShare := neg; neutralShare := neu;
              meanSentiment := mean |}
  end.

(** *** RegionRiskScorer *)

(** The weights of the "Risk Factors" table of src/DOCUMENTATION.md. *)
Definition RiskFactorWeights : list (string * Q) := [
  ("political_stability", 0.25);
  ("economic_conditions", 0.20);
  ("diplomatic_relations", 0.20);
  ("regional_conflicts", 0.15);
  ("trade_relations", 0.10);
  ("regulatory_environment", 0.10)
]%string.

(** Modelled from the spec: the clamping of a score in RegionRiskScorer,
    which is not in the front-end sources. *)
Definition clamp (lo hi x : Q) : Q :=
  if x <? lo then lo else if x >? hi then hi else x.

(** Modelled from the spec: the sum of the weights that RegionRiskScorer
    validates. *)
Definition sumWeights (weights : list (string * Q)) : Q :=
  fold_right (fun fw acc => snd fw + acc) 0 weights.

(** Modelled from the spec: the weighted sum of RegionRiskScorer over the
    factors of the weights; a missing factor counts as 0. *)
Definition weightedSum (weights : list (string * Q)) (rawScores : gmap string Q) : Q :=
  fold_right (fun fw acc => snd fw * default 0 (rawScores !! fst fw) + acc) 0 weights.

(** Modelled from the spec: the validation of the weights in
    RegionRiskScorer, a sum of 1.0 within 1e-6. *)
Definition validWeights (weights : list (string * Q)) : bool :=
  Qle_bool (Qabs (sumWeights weights - 1)) 0.000001.

(** Modelled from the spec: the validation of the raw scores in
    RegionRiskScorer, each within [0,1]. *)
Definition validScores (rawScores : gmap string Q) : bool :=
  forallb (fun kv => (snd kv >=? 0) && negb (snd kv >? 1)) (map_to_list rawScores).

(** Modelled from the spec: the level mapping of RegionRiskScorer (the
    "Risk Levels" of src/DOCUMENTATION.md), which is not in the front-end
    sources: score < 0.4 is Low, 0.4 <= score < 0.7 is Medium,
    score >= 0.7 is High. *)
Definition level (score : Q) : Level :=
  if score <? 0.4 then Low
  else if score <? 0.7 then Medium
  else High.

(** Modelled from the spec: RegionRiskScorer for one region, which is not
    in the front-end sources: weights that do not sum to 1.0 (within 1e-6)
    are a configuration error, a raw score outside [0,1] is a validation
    error, otherwise the score is the weighted sum clamped to [0,1]. *)
Definition RegionRiskScorer (weights : list (string * Q)) (rawScores : gmap string Q)
    : Result (Q * Level) :=
  if negb (validWeights weights) then Fail ConfigurationError
  else if negb (validScores rawScores) then Fail ValidationError
  else
    let score := clamp 0 1 (weightedSum weights rawScores) in
    Ok (score, level score).

(** *** TrendClassifier *)

(** Modelled from the spec: the three trends of TrendClassifier, which is
    not in the front-end sources (the pages show them as the strings
    ['increasing'], ['decreasing'], ['stable']). *)
Inductive Trend := increasing | decreasing | stable.

(** Modelled from the spec: the comparison of TrendClassifier, which is
    not in the front-end sources: delta = latest - previous;
    |delta| < threshold is stable, delta > 0 is increasing, delta < 0 is
    decreasing.  (With a positive threshold the three cases are
    exhaustive; the last branch is the remaining one.) *)
Definition classifyDelta (threshold previous latest : Q) : Trend :=
  let delta := latest - previous in
  if Qabs delta <? threshold then stable
  else if delta >? 0 then increasing
  else if delta <? 0 then decreasing
  else stable.

(** Modelled from the spec: TrendClassifier over the snapshots of one
    entity, oldest first; with fewer than two snapshots the trend is
    stable by convention. *)
Definition TrendClassifier (threshold : Q) (snapshots : list Q) : Trend :=
  match rev snapshots with
  | latest :: previous :: _ => classifyDelta threshold previous latest
  | _ => stable
  end.

(** Modelled from the spec: the configured threshold of TrendClassifier. *)
Definition defaultThreshold : Q := 0.03.

(** *** AnalysisOrchestrator: the global risk level *)

(** Modelled from the spec: the order Low < Medium < High in which
    AnalysisOrchestrator, which is not in the front-end sources, compares
    levels. *)
Definition rank (l : Level) : nat :=
  match l with Low => 0 | Medium => 1 | High => 2 end.

(** Modelled from the spec: the greater of two levels in that order. *)
Definition maxLevel (a b : Level) : Level :=
  if (rank a <? rank b)%nat then b else a.

(** Modelled from the spec: the global risk level of an AnalysisResult,
    which is not in the front-end sources: the maximum of the levels of the
    requested regions in the order Low < Medium < High.  [Low] is the unit
    of the maximum. *)
Definition globalRiskLevel (levels : list Level) : Level :=
  fold_right maxLevel Low levels.

(** *** AnalysisOrchestrator: partial failure *)

(** Modelled from the spec: what a collaborator contributes under the
    partial-failure policy of AnalysisOrchestrator, which is not in the
    front-end sources: its payload when it delivers, the empty set when it
    fails. *)
Definition delivered {A} (req : Settled (Response (list A))) : list A :=
  match req with
  | Fulfilled res => orEmpty (data res)
  | Rejected => []
  end.

(** Modelled from the spec: the partial-failure policy of
    AnalysisOrchestrator read on the state of the real-time page, as far as
    that state can express it (it has no field for a degraded flag): after
    the requests have settled, the news and the market data are what the
    two collaborators contributed. *)
Definition degradedContract
    (newsReq : Settled (Response (list NewsItem)))
    (marketReq : Settled (Response (list MarketItem)))
    (st : State) : Prop :=
  news st = delivered newsReq /\ marketData st = delivered marketReq.

End Engine.

(** ** Sample inputs *)

Module Samples.

(** A quote as the market endpoint may deliver it. *)
Definition liveQuote : RealTimeAnalysis.MarketItem :=
  {| RealTimeAnalysis.symbol := "TECHNOLOGY";
     RealTimeAnalysis.value := 101.5;
     RealTimeAnalysis.change := 0.4;
     RealTimeAnalysis.timestamp := "2024-02-01T09:00:00Z" |}%string.


End Samples.

(** ** The region and sector checkboxes

    The same check-box handler appears on the real-time, historical, risk
    and market-impact pages and, on [prev.regions] and [prev.sectors], on
    the settings page. *)

Module Selection.

(** [selected.includes(x)] *)
Definition includes (selected : list string) (x : string) : bool :=
  existsb (String.eqb x) selected.

(** The [onChange] handler of the box of [x]; [checked] is
    [e.target.checked]. *)
Definition onChange (checked : bool) (x : string) (selected : list string)
    : list string :=
  if checked then selected ++ [x]
  else List.filter (fun r => negb (String.eqb r x)) selected.

(** A click on the box of [x]: the box shows [selected.includes(x)] and the
    browser hands the handler the opposite. *)
Definition click (x : string) (selected : list string) : list string :=
  onChange (negb (includes selected x)) x selected.

End Selection.

(** ** services/api.js (src/unnamed/part_001) *)

Module Api.

(** What the interceptors read and write of the browser. *)
Record Browser := {
  localStorage : gmap string string;
  location : string
}.

(** A request configuration, as far as the interceptor touches it. *)
Record Config := {
  url : string;
  headers : gmap string string
}.

(** An axios error; [status] is [error.response?.status]. *)
Record AxiosError := {
  message : string;
  status : option Z
}.

(** [process.env.REACT_APP_API_URL || 'http://localhost:5000/api'] *)
Definition API_BASE_URL (env : option string) : string :=
  match env with
  | Some u => if String.eqb u "" then "http://localhost:5000/api" else u
  | None => "http://localhost:5000/api"
  end.

(** The headers given to [axios.create]. *)
Definition defaultHeaders : gmap string string :=
  {[ "Content-Type"%string := "application/json"%string ]}.

(** The request interceptor: [token] is [localStorage.getItem('authToken')],
    which is [null] for a missing key; an empty string is falsy as well. *)
Definition onRequest (browser : Browser) (config : Config) : Config :=
  match localStorage browser !! "authToken"%string with
  | Some token =>
      if String.eqb token "" then config
      else {| url := url config;
              headers := <[ "Authorization"%string := ("Bearer " ++ token)%string ]>
                           (headers config) |}
  | None => config
  end.

(** The response interceptor for errors: the state of the browser afterwards
    and the error with which the returned promise is rejected. *)
Definition onResponseError (error : AxiosError) (browser : Browser)
    : Browser * AxiosError :=
  match status error with
  | Some 401%Z =>
      ({| localStorage := delete "authToken"%string (localStorage browser);
          location := "/login" |}, error)
  | _ => (browser, error)
  end.

End Api.

(** ** pages/Settings.js (the first component of the file) *)

Module Settings.

Record SettingsState := {
  apiKeys : gmap string string;
  notifications : gmap string bool;
  regions : list string;
  sectors : list string;
  refreshInterval : Z;
  dataRetention : Z
}.

Definition initialSettings : SettingsState :=
  {| apiKeys := {[ "openai" := ""; "newsapi" := ""; "yahoo" := "" ]};
     notifications := {[ "email" := true; "push" := false; "alerts" := true ]};
     regions := ["North America"; "Europe"; "Asia-Pacific"];
     sectors := ["Technology"; "Energy"; "Finance"];
     refreshInterval := 300;
     dataRetention := 30 |}%string.

Definition handleApiKeyChange (key value : string) (prev : SettingsState)
    : SettingsState :=
  {| apiKeys := <[ key := value ]> (apiKeys prev);
     notifications := notifications prev;
     regions := regions prev; sectors := sectors prev;
     refreshInterval := refreshInterval prev;
     dataRetention := dataRetention prev |}.

Definition handleNotificationChange (key : string) (value : bool)
    (prev : SettingsState) : SettingsState :=
  {| apiKeys := apiKeys prev;
     notifications := <[ key := value ]> (notifications prev);
     regions := regions prev; sectors := sectors prev;
     refreshInterval := refreshInterval prev;
     dataRetention := dataRetention prev |}.

(** The handlers of the region and the sector boxes. *)
Definition onRegionChange (checked : bool) (region : string)
    (prev : SettingsState) : SettingsState :=
  {| apiKeys := apiKeys prev; notifications := notifications prev;
     regions := Selection.onChange checked region (regions prev);
     sectors := sectors prev;
     refreshInterval := refreshInterval prev;
     dataRetention := dataRetention prev |}.

Definition onSectorChange (checked : bool) (sector : string)
    (prev : SettingsState) : SettingsState :=
  {| apiKeys := apiKeys prev; notifications := notifications prev;
     regions := regions prev;
     sectors := Selection.onChange checked sector (sectors prev);
     refreshInterval := refreshInterval prev;
     dataRetention := dataRetention prev |}.

Section Storage.

(** [JSON.stringify] on a settings object. *)
Variable stringify : SettingsState -> string.

(** [handleSave]: the browser afterwards and the toast shown. *)
Definition handleSave (settings : SettingsState) (browser : Api.Browser)
    : Api.Browser * RealTimeAnalysis.Toast :=
  ({| Api.localStorage :=
        <[ "gma-settings"%string := stringify settings ]> (Api.localStorage browser);
      Api.location := Api.location browser |},
   RealTimeAnalysis.toast_success "Settings saved successfully").

End Storage.

(** The "Clear Data" button; [confirmed] is the answer to
    [window.confirm]. *)
Definition clearData (confirmed : bool) (browser : Api.Browser)
    : Api.Browser * option RealTimeAnalysis.Toast :=
  if confirmed then
    ({| Api.localStorage := ∅; Api.location := Api.location browser |},
     Some (RealTimeAnalysis.toast_success "All data cleared successfully"))
  else (browser, None).

End Settings.

(** ** pages/RiskAssessment.js: the cards of one region *)

Module RiskAssessmentView.

(** The class of the level text, chosen by comparing the colour that
    [getRiskColor] returns with the two hexadecimal codes. *)
Definition riskTextClass (risk : Q) : Dashboard.TextColor :=
  if String.eqb (RiskAssessment.getRiskColor risk) "#22c55e"
  then Dashboard.text_success_600
  else if String.eqb (RiskAssessment.getRiskColor risk) "#f59e0b"
  then Dashboard.text_warning_600
  else Dashboard.text_danger_600.

(** The closing sentence of the analysis text: [' Immediate attention
    recommended.'] or [' Monitor for changes.'] *)
Inductive Advice := ImmediateAttention | MonitorForChanges.

Definition advice (item : RiskAssessment.RiskEntry) : Advice :=
  if RiskAssessment.risk item >? 0.5 then ImmediateAttention
  else MonitorForChanges.

Definition COLORS : list string :=
  ["#ef4444"; "#f59e0b"; "#22c55e"; "#3b82f6"; "#8b5cf6"; "#ec4899"]%string.

(** [COLORS[index % COLORS.length]], the fill of the pie cell of the entry
    at [index]; [None] is [undefined]. *)
Definition cellColor (index : nat) : option string :=
  nth_error COLORS (index mod length COLORS).

Inductive TrendIcon := TrendingUp_danger | TrendingUp_success_rotated | GrayDot.

(** [getTrendIcon]: a [switch] on the trend string with a [default]. *)
Definition getTrendIcon (trend : string) : TrendIcon :=
  if String.eqb trend "increasing" then TrendingUp_danger
  else if String.eqb trend "decreasing" then TrendingUp_success_rotated
  else GrayDot.

End RiskAssessmentView.

(** ** pages/RealTimeAnalysis.js: the badges of the feed *)

Module RealTimeView.

Inductive BadgeClass := badge_danger | badge_warning | badge_success.

(** The class of the "Risk Level" badge of the analysis panel. *)
Definition riskLevelBadge (riskLevel : string) : BadgeClass :=
  if String.eqb riskLevel "High" then badge_danger
  else if String.eqb riskLevel "Medium" then badge_warning
  else badge_success.

(** The panel is rendered under [analysis && ...]. *)
Definition panelShown (st : RealTimeAnalysis.State) : bool :=
  match RealTimeAnalysis.analysis st with Some _ => true | None => false end.

End RealTimeView.

(** ** pages/Dashboard.js: loading the dashboard *)

Module DashboardPage.

Import RealTimeAnalysis.

Record Overview := {
  totalNews : Q;
  riskScore : Q;
  marketVolatility : Q;
  activeRegions : Q
}.

Record SentimentPoint := {
  sp_date : string;
  sp_positive : Q;
  sp_negative : Q;
  sp_neutral : Q
}.

Record RegionRisk := {
  rr_region : string;
  rr_risk : Q
}.

Record Metrics := {
  sentimentTrend : list SentimentPoint;
  riskByRegion : list RegionRisk
}.

Record Activity := {
  act_id : Z;
  act_type : string;
  act_title : string;
  act_time : string
}.

(** The component state with the toasts and console lines emitted (latest
    first).  [None] is [null] or [undefined]. *)
Record State := {
  overview : option Overview;
  metrics : option Metrics;
  activity : option (list Activity);
  loading : bool;
  toasts : list Toast;
  console : list string
}.

Definition initialState : State :=
  {| overview := None; metrics := None; activity := Some [];
     loading := true; toasts := []; console := [] |}.

Definition mockOverview : Overview :=
  {| totalNews := 156; riskScore := 0.34; marketVolatility := 0.28;
     activeRegions := 8 |}.

Definition mockMetrics : Metrics :=
  {| sentimentTrend := [
       {| sp_date := "2024-01"; sp_positive := 65; sp_negative := 20; sp_neutral := 15 |};
       {| sp_date := "2024-02"; sp_positive := 58; sp_negative := 25; sp_neutral := 17 |};
       {| sp_date := "2024-03"; sp_positive := 72; sp_negative := 18; sp_neutral := 10 |} ];
     riskByRegion := [
       {| rr_region := "Europe"; rr_risk := 0.25 |};
       {| rr_region := "Asia-Pacific"; rr_risk := 0.45 |};
       {| rr_region := "North America"; rr_risk := 0.15 |};
       {| rr_region := "Middle East"; rr_risk := 0.75 |};
       {| rr_region := "Africa"; rr_risk := 0.35 |} ] |}%string.

Definition mockActivity : list Activity := [
  {| act_id := 1; act_type := "news";
     act_title := "New geopolitical tension in Eastern Europe";
     act_time := "2 hours ago" |};
  {| act_id := 2; act_type := "analysis";
     act_title := "AI analysis completed for Asia-Pacific region";
     act_time := "4 hours ago" |};
  {| act_id := 3; act_type := "alert";
     act_title := "High risk alert: Middle East tensions";
     act_time := "6 hours ago" |}
]%string.

(** [Promise.all([p, q, r])] *)
Definition Promise_all3 {A B C} (p : Settled A) (q : Settled B) (r : Settled C)
    : Settled (A * B * C) :=
  match p, q, r with
  | Fulfilled a, Fulfilled b, Fulfilled c => Fulfilled (a, b, c)
  | _, _, _ => Rejected
  end.

(** [fetchDashboardData]: the three arguments are the ways in which
    [getOverview], [getMetrics] and [getRecentActivity] settle.  The
    payloads are stored as they come, without a fallback. *)
Definition fetchDashboardData
    (overviewReq : Settled (Response Overview))
    (metricsReq : Settled (Response Metrics))
    (activityReq : Settled (Response (list Activity)))
    (st : State) : State :=
  match Promise_all3 overviewReq metricsReq activityReq with
  | Fulfilled (overviewRes, metricsRes, activityRes) =>
      {| overview := data overviewRes;
         metrics := data metricsRes;
         activity := data activityRes;
         loading := false;
         toasts := toasts st; console := console st |}
  | Rejected =>
      {| overview := Some mockOverview;
         metrics := Some mockMetrics;
         activity := Some mockActivity;
         loading := false;
         toasts := toast_error "Failed to load dashboard data" :: toasts st;
         console := "Error fetching dashboard data:"%string :: console st |}
  end.

(** [metrics?.riskByRegion || []], the data of the bar chart. *)
Definition riskChartData (st : State) : list RegionRisk :=
  match metrics st with Some m => riskByRegion m | None => [] end.

(** [metrics?.sentimentTrend || []], the data of the line chart. *)
Definition sentimentChartData (st : State) : list SentimentPoint :=
  match metrics st with Some m => sentimentTrend m | None => [] end.

(** The background class of an activity row. *)
Definition activityBackground (type : string) : string :=
  if String.eqb type "news" then "bg-blue-100"
  else if String.eqb type "analysis" then "bg-green-100"
  else "bg-red-100".

Inductive ActivityIcon := icon_Globe | icon_Activity | icon_AlertTriangle.

(** The icons of an activity row: each of the three [type === ... &&]
    lines contributes its icon when its test holds. *)
Definition activityIcons (type : string) : list ActivityIcon :=
  (if String.eqb type "news" then [icon_Globe] else [])
  ++ (if String.eqb type "analysis" then [icon_Activity] else [])
  ++ (if String.eqb type "alert" then [icon_AlertTriangle] else []).

(** [activity.map(...)], the rows of the "Recent Activity" card: [None]
    when [activity] is [undefined] and the call throws. *)
Definition activityRows (st : State) : option (list (string * list ActivityIcon * string)) :=
  match activity st with
  | Some items =>
      Some (map (fun item => (activityBackground (act_type item),
                              activityIcons (act_type item),
                              act_title item)) items)
  | None => None
  end.

End DashboardPage.

(** ** Where the arithmetic of the pages is exact *)

Module Exact.

(** [Number.MAX_SAFE_INTEGER + 1]: binary64 adds whole numbers without
    rounding as long as the sums stay within this bound. *)
Definition sumLimit : Z := 2 ^ 53.

(** A bound under which the binary64 quotient of a whole sum by a length
    rounds to the same integer as the exact quotient. *)
Definition meanLimit : Z := 2 ^ 51.

(** The column [f] of a table holds whole, non-negative figures and adds up
    to at most [bound]. *)
Definition wholeColumn (bound : Z)
    (f : HistoricalAnalysis.SentimentRow -> Q)
    (data : list HistoricalAnalysis.SentimentRow) : Prop :=
  (forall row, In row data -> exists z : Z, (0 <= z)%Z /\ f row == inject_Z z) /\
  HistoricalAnalysis.reduceSum f data <= inject_Z bound.

End Exact.

(** * Properties *)

(** ** The comparison operators *)

Module NumFacts.

Lemma ltb_lt a b : (a <? b) = true <-> a < b.
Proof.
  unfold Num.ltb. rewrite negb_true_iff, <- not_true_iff_false, Qle_bool_iff.
  split; intro H; [apply Qnot_le_lt | apply Qlt_not_le]; exact H.
Qed.

Lemma ltb_ge a b : (a <? b) = false <-> b <= a.
Proof. unfold Num.ltb. rewrite negb_false_iff. apply Qle_bool_iff. Qed.

Lemma gtb_gt a b : (a >? b) = true <-> b < a.
Proof. apply ltb_lt. Qed.

Lemma gtb_le a b : (a >? b) = false <-> a <= b.
Proof. apply ltb_ge. Qed.

Lemma geb_ge a b : (a >=? b) = true <-> b <= a.
Proof. apply Qle_bool_iff. Qed.

Lemma geb_lt a b : (a >=? b) = false <-> a < b.
Proof.
  unfold Num.geb. rewrite <- not_true_iff_false, Qle_bool_iff.
  split; intro H; [apply Qnot_le_lt | apply Qlt_not_le]; exact H.
Qed.

Lemma len_pos {A} (xs : list A) : xs <> [] -> 0 < Num.len xs.
Proof.
  destruct xs as [|x xs]; [congruence|]. intros _. unfold Num.len.
  change 0 with (inject_Z 0). rewrite <- Zlt_Qlt. simpl length. lia.
Qed.

Lemma len_nil {A} : Num.len (@nil A) = 0.
Proof. reflexivity. Qed.

Lemma div_pos a b : 0 < b -> Num.div a b = Some (a / b).
Proof.
  intro Hb. unfold Num.div. destruct (Qeq_bool b 0) eqn:E; [|reflexivity].
  apply Qeq_bool_eq in E. rewrite E in Hb. now apply Qlt_irrefl in Hb.
Qed.

End NumFacts.

(** Turns every comparison in the goal and the context into an order
    statement on [Q], branch by branch. *)
Ltac cmp_cases :=
  repeat match goal with
  | |- context [Num.ltb ?a ?b] =>
      let E := fresh "E" in
      destruct (Num.ltb a b) eqn:E;
      [apply NumFacts.ltb_lt in E | apply NumFacts.ltb_ge in E]
  | |- context [Num.gtb ?a ?b] =>
      let E := fresh "E" in
      destruct (Num.gtb a b) eqn:E;
      [apply NumFacts.gtb_gt in E | apply NumFacts.gtb_le in E]
  | |- context [Num.geb ?a ?b] =>
      let E := fresh "E" in
      destruct (Num.geb a b) eqn:E;
      [apply NumFacts.geb_ge in E | apply NumFacts.geb_lt in E]
  end.

(** ** Risk levels of the pages *)

(** Where [getRiskLevel] puts its boundaries: at 0.3 and at 0.6. *)
Lemma getRiskLevel_cases (risk : Q) :
  (RiskAssessment.getRiskLevel risk = Low <-> risk < 0.3) /\
  (RiskAssessment.getRiskLevel risk = Medium <-> 0.3 <= risk /\ risk < 0.6) /\
  (RiskAssessment.getRiskLevel risk = High <-> 0.6 <= risk).
Proof.
  unfold RiskAssessment.getRiskLevel. cmp_cases;
    repeat split; intros; try discriminate; try reflexivity; try lra.
Qed.

(** Both pages define the same function. *)
Lemma getRiskLevel_same (risk : Q) :
  Dashboard.getRiskLevel risk = RiskAssessment.getRiskLevel risk.
Proof. reflexivity. Qed.

(** The scores on which [getRiskLevel] and the documented level mapping
    give different labels are those of [0.3, 0.4) and of [0.6, 0.7). *)
Lemma getRiskLevel_vs_documented (score : Q) :
  RiskAssessment.getRiskLevel score <> Engine.level score <->
  (0.3 <= score /\ score < 0.4) \/ (0.6 <= score /\ score < 0.7).
Proof.
  unfold RiskAssessment.getRiskLevel, Engine.level. cmp_cases; split;
    intros H; try congruence; try discriminate; try lra;
    try (left; lra); try (right; lra).
Qed.

(** On the scores 0.35 and 0.65 the labels of the pages and the level of
    the documented mapping differ. *)
Example getRiskLevel_off_documented_boundaries :
  RiskAssessment.getRiskLevel 0.35 = Medium /\
  Dashboard.getRiskLevel 0.35 = Medium /\
  Engine.level 0.35 = Low /\
  RiskAssessment.getRiskLevel 0.65 = High /\
  Dashboard.getRiskLevel 0.65 = High /\
  Engine.level 0.65 = Medium.
Proof. repeat split; reflexivity. Qed.

(** ** The risk summary *)

Section RiskSummary.

Import RiskAssessment.

(** The bucket tests of the summary card are the three labels. *)
Lemma low_bucket_label (r : Q) :
  (r <? 0.3) = bool_decide (getRiskLevel r = Low).
Proof.
  unfold getRiskLevel. cmp_cases; reflexivity.
Qed.

Lemma medium_bucket_label (r : Q) :
  ((r >=? 0.3) && (r <? 0.6)) = bool_decide (getRiskLevel r = Medium).
Proof.
  unfold getRiskLevel. cmp_cases; simpl; first [ reflexivity | exfalso; lra ].
Qed.

Lemma high_bucket_label (r : Q) :
  (r >=? 0.6) = bool_decide (getRiskLevel r = High).
Proof.
  unfold getRiskLevel. cmp_cases; simpl; first [ reflexivity | exfalso; lra ].
Qed.

(** Every entry carries exactly one label. *)
Lemma labelled_total (riskData : list RiskEntry) :
  (labelled Low riskData + labelled Medium riskData + labelled High riskData
   = length riskData)%nat.
Proof.
  unfold labelled. induction riskData as [|r rest IH]; [reflexivity|].
  simpl. destruct (getRiskLevel (risk r)); simpl; lia.
Qed.

End RiskSummary.

(** C9.  The three buckets of the risk summary (risk < 0.3,
    0.3 <= risk < 0.6, risk >= 0.6) partition any list of risk entries:
    their counts add up to the length of the list, and each count is the
    number of entries that [getRiskLevel] labels Low, Medium and High. *)
Theorem risk_summary_partition (riskData : list RiskAssessment.RiskEntry) :
  (RiskAssessment.lowRiskRegions riskData
   + RiskAssessment.mediumRiskRegions riskData
   + RiskAssessment.highRiskRegions riskData = length riskData)%nat /\
  RiskAssessment.lowRiskRegions riskData = RiskAssessment.labelled Low riskData /\
  RiskAssessment.mediumRiskRegions riskData = RiskAssessment.labelled Medium riskData /\
  RiskAssessment.highRiskRegions riskData = RiskAssessment.labelled High riskData.
Proof.
  assert (HL : RiskAssessment.lowRiskRegions riskData
               = RiskAssessment.labelled Low riskData).
  { unfold RiskAssessment.lowRiskRegions, RiskAssessment.labelled.
    f_equal. apply List.filter_ext. intro r. apply low_bucket_label. }
  assert (HM : RiskAssessment.mediumRiskRegions riskData
               = RiskAssessment.labelled Medium riskData).
  { unfold RiskAssessment.mediumRiskRegions, RiskAssessment.labelled.
    f_equal. apply List.filter_ext. intro r. apply medium_bucket_label. }
  assert (HH : RiskAssessment.highRiskRegions riskData
               = RiskAssessment.labelled High riskData).
  { unfold RiskAssessment.highRiskRegions, RiskAssessment.labelled.
    f_equal. apply List.filter_ext. intro r. apply high_bucket_label. }
  rewrite HL, HM, HH. split; [apply labelled_total | auto].
Qed.

(** The summary of the demonstration data: two low, three medium, one
    high-risk region. *)
Example risk_summary_mock :
  RiskAssessment.lowRiskRegions RiskAssessment.mockRiskData = 2%nat /\
  RiskAssessment.mediumRiskRegions RiskAssessment.mockRiskData = 3%nat /\
  RiskAssessment.highRiskRegions RiskAssessment.mockRiskData = 1%nat.
Proof. repeat split; reflexivity. Qed.

(** ** Market impact *)

(** C4.  The recommendation shown for a sector is MonitorClosely exactly
    when its impact is above 0.7, Watch exactly when it is above 0.4 and at
    most 0.7, and Stable exactly when it is at most 0.4; [getImpactLevel]
    draws the same lines. *)
Theorem recommendation_thresholds (item : MarketImpact.ImpactItem) :
  let i := MarketImpact.impact item in
  (MarketImpact.recommendation item = MarketImpact.MonitorClosely <-> 0.7 < i) /\
  (MarketImpact.recommendation item = MarketImpact.Watch <-> 0.4 < i /\ i <= 0.7) /\
  (MarketImpact.recommendation item = MarketImpact.Stable <-> i <= 0.4) /\
  (MarketImpact.getImpactLevel i = High <-> 0.7 < i) /\
  (MarketImpact.getImpactLevel i = Medium <-> 0.4 < i /\ i <= 0.7) /\
  (MarketImpact.getImpactLevel i = Low <-> i <= 0.4).
Proof.
  unfold MarketImpact.recommendation, MarketImpact.getImpactLevel. simpl.
  cmp_cases; repeat split; intros; try discriminate; try reflexivity; try lra.
Qed.

Section InvestmentRecommendations.

Import MarketImpact.

Lemma in_highImpactSectors (impactData : list ImpactItem) (item : ImpactItem) :
  In item (highImpactSectors impactData) <-> In item impactData /\ 0.7 < impact item.
Proof.
  unfold highImpactSectors. now rewrite filter_In, NumFacts.gtb_gt.
Qed.

Lemma in_stableSectors (impactData : list ImpactItem) (item : ImpactItem) :
  In item (stableSectors impactData) <-> In item impactData /\ impact item < 0.4.
Proof.
  unfold stableSectors. now rewrite filter_In, NumFacts.ltb_lt.
Qed.

(** Items of a list whose keys are pairwise different are determined by
    their key. *)
Lemma NoDup_map_eq {A B} (f : A -> B) (l : list A) (a b : A) :
  List.NoDup (map f l) -> In a l -> In b l -> f a = f b -> a = b.
Proof.
  induction l as [|x l IH]; simpl; [tauto|].
  intros Hnd Ha Hb Hab. inversion Hnd as [|? ? Hx Hl]; subst.
  destruct Ha as [->|Ha], Hb as [->|Hb]; auto.
  - exfalso. apply Hx. rewrite Hab. now apply in_map.
  - exfalso. apply Hx. rewrite <- Hab. now apply in_map.
Qed.

(** When every sector has one entry (the pages use the sector as the React
    key), no sector name is in both lists. *)
Lemma recommendation_lists_disjoint_by_name (impactData : list ImpactItem) (s : string) :
  List.NoDup (map sector impactData) ->
  In s (map sector (highImpactSectors impactData)) ->
  ~ In s (map sector (stableSectors impactData)).
Proof.
  intros Hnd Hh Hs.
  apply in_map_iff in Hh as (a & <- & Ha). apply in_map_iff in Hs as (b & Hab & Hb).
  apply in_highImpactSectors in Ha as [Ha Hia].
  apply in_stableSectors in Hb as [Hb Hib].
  assert (b = a) by (eapply NoDup_map_eq; eauto). subst b. lra.
Qed.

End InvestmentRecommendations.

(** C10.  The "High Impact Sectors" list (impact > 0.7) and the "Stable
    Sectors" list (impact < 0.4) have no entry in common, and an entry whose
    impact lies in [0.4, 0.7] is in neither of them. *)
Theorem recommendation_lists_disjoint (impactData : list MarketImpact.ImpactItem) :
  (forall item,
     In item (MarketImpact.highImpactSectors impactData) ->
     ~ In item (MarketImpact.stableSectors impactData)) /\
  (forall item,
     In item impactData ->
     0.4 <= MarketImpact.impact item -> MarketImpact.impact item <= 0.7 ->
     ~ In item (MarketImpact.highImpactSectors impactData) /\
     ~ In item (MarketImpact.stableSectors impactData)).
Proof.
  split.
  - intros item Hh Hs.
    apply in_highImpactSectors in Hh as [_ Hh].
    apply in_stableSectors in Hs as [_ Hs]. lra.
  - intros item _ Hlo Hhi. split; intro H.
    + apply in_highImpactSectors in H as [_ H]. lra.
    + apply in_stableSectors in H as [_ H]. lra.
Qed.

(** On the demonstration data: Healthcare (0.4) and Manufacturing (0.7) sit
    on the boundaries and are in neither list. *)
Example recommendation_lists_mock :
  map MarketImpact.sector (MarketImpact.highImpactSectors MarketImpact.mockImpactData)
    = ["Technology"; "Finance"]%string /\
  MarketImpact.stableSectors MarketImpact.mockImpactData = [].
Proof. split; reflexivity. Qed.

(** ** Fetching the real-time data *)

Section FetchData.

Import RealTimeAnalysis.

Lemma Promise_all_rejected {A B} (p : Settled A) (q : Settled B) :
  p = Rejected \/ q = Rejected -> Promise_all p q = Rejected.
Proof. intros [-> | ->]; [reflexivity | destruct p; reflexivity]. Qed.

(** When both requests are fulfilled the state holds what they returned
    and nothing is reported. *)
Lemma fetchData_fulfilled newsRes marketRes (st : State) :
  fetchData (Fulfilled newsRes) (Fulfilled marketRes) st =
  {| news := orEmpty (data newsRes);
     marketData := orEmpty (data marketRes);
     analysis := analysis st; loading := false;
     toasts := toasts st; console := console st |}.
Proof. reflexivity. Qed.

(** A failed analysis request installs the demonstration analysis, whose
    risk level is the constant ['Medium']. *)
Lemma generateAnalysis_rejected req (st : State) :
  req (news st) (marketData st) = Rejected ->
  analysis (generateAnalysis req st) = Some mockAnalysis /\
  toasts (generateAnalysis req st)
    = toast_error "Failed to generate AI analysis" :: toasts st.
Proof. intro H. unfold generateAnalysis. simpl. rewrite H. split; reflexivity. Qed.

End FetchData.

(** C2 as stated fails: when the news request is rejected and the market
    request delivers one real quote, [fetchData] keeps neither the empty
    news set nor the delivered quote. *)
Lemma fetchData_breaks_degraded_contract :
  ~ Engine.degradedContract
      RealTimeAnalysis.Rejected
      (RealTimeAnalysis.Fulfilled
         {| RealTimeAnalysis.data := Some [Samples.liveQuote] |})
      (RealTimeAnalysis.fetchData
         RealTimeAnalysis.Rejected
         (RealTimeAnalysis.Fulfilled
            {| RealTimeAnalysis.data := Some [Samples.liveQuote] |})
         RealTimeAnalysis.initialState).
Proof. intros [Hnews _]. discriminate Hnews. Qed.

(** C2, amended.  When at least one of the two requests fails, [fetchData]
    drops whatever the other one delivered and installs its demonstration
    data for both the news and the market data; the failure is reported on
    the console and by the toast "Failed to fetch real-time data", the
    loading flag is cleared and the analysis is left as it was. *)
Theorem fetchData_on_failure
    (newsReq : RealTimeAnalysis.Settled
                 (RealTimeAnalysis.Response (list RealTimeAnalysis.NewsItem)))
    (marketReq : RealTimeAnalysis.Settled
                 (RealTimeAnalysis.Response (list RealTimeAnalysis.MarketItem)))
    (st : RealTimeAnalysis.State) :
  newsReq = RealTimeAnalysis.Rejected \/ marketReq = RealTimeAnalysis.Rejected ->
  RealTimeAnalysis.fetchData newsReq marketReq st =
  {| RealTimeAnalysis.news := RealTimeAnalysis.mockNews;
     RealTimeAnalysis.marketData := RealTimeAnalysis.mockMarketData;
     RealTimeAnalysis.analysis := RealTimeAnalysis.analysis st;
     RealTimeAnalysis.loading := false;
     RealTimeAnalysis.toasts :=
       RealTimeAnalysis.toast_error "Failed to fetch real-time data"
         :: RealTimeAnalysis.toasts st;
     RealTimeAnalysis.console :=
       "Error fetching data:"%string :: RealTimeAnalysis.console st |}.
Proof.
  intro H. unfold RealTimeAnalysis.fetchData.
  rewrite (Promise_all_rejected _ _ H). reflexivity.
Qed.

Lemma fetchData_on_failure_witness :
  (@RealTimeAnalysis.Rejected
     (RealTimeAnalysis.Response (list RealTimeAnalysis.NewsItem))
   = RealTimeAnalysis.Rejected \/
   RealTimeAnalysis.Fulfilled
     {| RealTimeAnalysis.data := Some [Samples.liveQuote] |}
   = RealTimeAnalysis.Rejected) /\
  RealTimeAnalysis.marketData
    (RealTimeAnalysis.fetchData
       RealTimeAnalysis.Rejected
       (RealTimeAnalysis.Fulfilled
          {| RealTimeAnalysis.data := Some [Samples.liveQuote] |})
       RealTimeAnalysis.initialState)
  = RealTimeAnalysis.mockMarketData.
Proof.
  split; [left; reflexivity|].
  rewrite (fetchData_on_failure
             RealTimeAnalysis.Rejected
             (RealTimeAnalysis.Fulfilled
                {| RealTimeAnalysis.data := Some [Samples.liveQuote] |})
             RealTimeAnalysis.initialState);
    [reflexivity | left; reflexivity].
Defined.

(** ** Sentiment classes and shares *)

Section Sentiment.

Import RealTimeAnalysis Engine.

(** The class of the aggregate is the class that the news feed shows by
    the colour and the icon of an item. *)
Lemma polarity_badge (s : Q) :
  (polarity s = Positive <->
     getSentimentColor s = text_success_600 /\ getSentimentIcon s = CheckCircle) /\
  (polarity s = Negative <->
     getSentimentColor s = text_danger_600 /\ getSentimentIcon s = AlertTriangle) /\
  (polarity s = Neutral <->
     getSentimentColor s = text_gray_600 /\ getSentimentIcon s = Clock).
Proof.
  unfold polarity, getSentimentColor, getSentimentIcon.
  cmp_cases; repeat split; intros; try discriminate; try tauto;
    try (destruct H; discriminate).
Qed.

Lemma polarity_cases (s : Q) :
  (polarity s = Positive <-> 0.3 < s) /\
  (polarity s = Negative <-> s < -0.3) /\
  (polarity s = Neutral <-> -0.3 <= s /\ s <= 0.3).
Proof.
  unfold polarity.
  cmp_cases; repeat split; intros; try discriminate; try reflexivity; try lra.
Qed.

Lemma countPolarity_total (items : list NewsItem) :
  (countPolarity Positive items + countPolarity Negative items
   + countPolarity Neutral items = length items)%nat.
Proof.
  unfold countPolarity. induction items as [|item rest IH]; [reflexivity|].
  simpl. destruct (polarity (sentiment item)); simpl; lia.
Qed.

(** The counts are the counts of the three threshold tests. *)
Lemma countPolarity_tests (items : list NewsItem) :
  countPolarity Positive items
    = length (List.filter (fun item => sentiment item >? 0.3) items) /\
  countPolarity Negative items
    = length (List.filter (fun item => sentiment item <? -0.3) items) /\
  countPolarity Neutral items
    = length (List.filter
                (fun item => negb (sentiment item >? 0.3)
                             && negb (sentiment item <? -0.3)) items).
Proof.
  unfold countPolarity. repeat split; f_equal; apply List.filter_ext;
    intro item; unfold polarity; cmp_cases; simpl;
    first [ reflexivity | exfalso; lra ].
Qed.

(** The aggregator returns a summary on every input. *)
Lemma SentimentAggregator_total (items : list NewsItem) :
  exists r, SentimentAggregator items = Some r.
Proof.
  destruct items as [|item rest]; [eexists; reflexivity|].
  unfold SentimentAggregator.
  assert (Hn : 0 < Num.len (item :: rest)) by (apply NumFacts.len_pos; discriminate).
  rewrite !(NumFacts.div_pos _ _ Hn). simpl. eexists; reflexivity.
Qed.

Lemma SentimentAggregator_nonempty (items : list NewsItem) :
  items <> [] ->
  SentimentAggregator items =
  Some {| positiveShare := inject_Z (Z.of_nat (countPolarity Positive items)) / Num.len items;
          negativeShare := inject_Z (Z.of_nat (countPolarity Negative items)) / Num.len items;
          neutralShare := inject_Z (Z.of_nat (countPolarity Neutral items)) / Num.len items;
          meanSentiment := sumSentiment items / Num.len items |}.
Proof.
  intro Hne. pose proof (NumFacts.len_pos items Hne) as Hn.
  destruct items as [|item rest]; [congruence|].
  unfold SentimentAggregator. rewrite !(NumFacts.div_pos _ _ Hn). reflexivity.
Qed.

End Sentiment.

(** C5.  An item counts as positive exactly when its sentiment is above
    0.3, as negative exactly when it is below -0.3 and as neutral
    otherwise, and on non-empty input the aggregator returns the three
    counts divided by the number of items, which add up to 1. *)
Theorem sentiment_shares_normalized (items : list RealTimeAnalysis.NewsItem) :
  items <> [] ->
  (forall s : Q,
     (Engine.polarity s = Engine.Positive <-> 0.3 < s) /\
     (Engine.polarity s = Engine.Negative <-> s < -0.3) /\
     (Engine.polarity s = Engine.Neutral <-> -0.3 <= s /\ s <= 0.3)) /\
  exists r,
    Engine.SentimentAggregator items = Some r /\
    Engine.positiveShare r
      == inject_Z (Z.of_nat (Engine.countPolarity Engine.Positive items)) / Num.len items /\
    Engine.negativeShare r
      == inject_Z (Z.of_nat (Engine.countPolarity Engine.Negative items)) / Num.len items /\
    Engine.neutralShare r
      == inject_Z (Z.of_nat (Engine.countPolarity Engine.Neutral items)) / Num.len items /\
    Engine.positiveShare r + Engine.negativeShare r + Engine.neutralShare r == 1.
Proof.
  intro Hne. split; [apply polarity_cases|].
  eexists. split; [apply SentimentAggregator_nonempty, Hne|]. simpl.
  repeat split; try reflexivity.
  pose proof (NumFacts.len_pos items Hne) as Hn.
  pose proof (countPolarity_total items) as Ht.
  assert (Hq : inject_Z (Z.of_nat (Engine.countPolarity Engine.Positive items))
               + inject_Z (Z.of_nat (Engine.countPolarity Engine.Negative items))
               + inject_Z (Z.of_nat (Engine.countPolarity Engine.Neutral items))
               == Num.len items).
  { unfold Num.len. rewrite <- Ht, !Nat2Z.inj_add, !inject_Z_plus. reflexivity. }
  assert (Hnz : ~ Num.len items == 0).
  { intro H0. rewrite H0 in Hn. now apply Qlt_irrefl in Hn. }
  transitivity
    ((inject_Z (Z.of_nat (Engine.countPolarity Engine.Positive items))
      + inject_Z (Z.of_nat (Engine.countPolarity Engine.Negative items))
      + inject_Z (Z.of_nat (Engine.countPolarity Engine.Neutral items)))
     / Num.len items).
  - field. exact Hnz.
  - rewrite Hq. field. exact Hnz.
Qed.

Lemma sentiment_shares_normalized_witness :
  RealTimeAnalysis.mockNews <> [] /\
  exists r,
    Engine.SentimentAggregator RealTimeAnalysis.mockNews = Some r /\
    Engine.positiveShare r + Engine.negativeShare r + Engine.neutralShare r == 1.
Proof.
  split; [discriminate|].
  destruct (sentiment_shares_normalized RealTimeAnalysis.mockNews)
    as [_ (r & Hr & _ & _ & _ & Hsum)]; [discriminate|].
  exists r. split; assumption.
Defined.

(** The shares of the demonstration news: two positive items, one negative,
    none neutral. *)
Example SentimentAggregator_mockNews :
  exists r,
    Engine.SentimentAggregator RealTimeAnalysis.mockNews = Some r /\
    Engine.positiveShare r == 2 # 3 /\ Engine.negativeShare r == 1 # 3 /\
    Engine.neutralShare r == 0 /\ Engine.meanSentiment r == 0.2.
Proof. eexists. split; [reflexivity|]. repeat split; reflexivity. Qed.

(** ** Empty input *)

Section NewsSummary.

Import HistoricalAnalysis.

(** Under its guard the rounded mean is a number. *)
Lemma roundedMean_guarded (f : SentimentRow -> Q) (historicalData : list SentimentRow) :
  (Num.len historicalData >? 0) = true ->
  roundedMean f historicalData
  = Percent (Num.round (reduceSum f historicalData / Num.len historicalData)).
Proof.
  intro H. apply NumFacts.gtb_gt in H. unfold roundedMean.
  now rewrite (NumFacts.div_pos _ _ H).
Qed.

(** Without the guard the empty table would render as "NaN%". *)
Lemma roundedMean_nil (f : SentimentRow -> Q) : roundedMean f [] = NotANumber.
Proof. reflexivity. Qed.

(** The card never shows a non-finite percentage. *)
Lemma newsSummary_finite (historicalData : list SentimentRow) :
  positiveText historicalData <> NotANumber /\
  negativeText historicalData <> NotANumber.
Proof.
  unfold positiveText, negativeText.
  destruct (Num.len historicalData >? 0) eqn:E.
  - rewrite !(roundedMean_guarded _ _ E). split; discriminate.
  - split; discriminate.
Qed.

End NewsSummary.

(** C7.  On empty input the sentiment aggregation does not fail and every
    field of its summary is 0; the aggregation returns a summary on every
    input, so no item count makes it divide by zero.  The page's own news
    summary over an empty table shows 0 articles, "0%" positive and "0%"
    negative. *)
Theorem empty_input_yields_zero :
  Engine.SentimentAggregator [] =
    Some {| Engine.positiveShare := 0; Engine.negativeShare := 0;
            Engine.neutralShare := 0; Engine.meanSentiment := 0 |} /\
  (forall items, exists r, Engine.SentimentAggregator items = Some r) /\
  HistoricalAnalysis.totalArticles [] = 0 /\
  HistoricalAnalysis.positiveText [] = HistoricalAnalysis.Percent 0 /\
  HistoricalAnalysis.negativeText [] = HistoricalAnalysis.Percent 0.
Proof.
  split; [reflexivity|]. split; [apply SentimentAggregator_total|].
  repeat split; reflexivity.
Qed.

(** The news summary of the demonstration table: 700 articles, 62%
    positive, 23% negative. *)
Example newsSummary_mock :
  HistoricalAnalysis.totalArticles HistoricalAnalysis.mockHistoricalData == 700 /\
  HistoricalAnalysis.positiveText HistoricalAnalysis.mockHistoricalData
    = HistoricalAnalysis.Percent 62 /\
  HistoricalAnalysis.negativeText HistoricalAnalysis.mockHistoricalData
    = HistoricalAnalysis.Percent 23.
Proof. repeat split; reflexivity. Qed.

(** ** The region risk score *)

Section RegionRisk.

Import Engine.

Lemma RiskFactorWeights_valid : sumWeights RiskFactorWeights == 1.
Proof. reflexivity. Qed.

Lemma clamp_range (x : Q) : 0 <= clamp 0 1 x /\ clamp 0 1 x <= 1.
Proof. unfold clamp. cmp_cases; lra. Qed.

(** A scorer that succeeds returns a score in [0,1] with its level. *)
Lemma RegionRiskScorer_range weights rawScores (score : Q) (l : Level) :
  RegionRiskScorer weights rawScores = Ok (score, l) ->
  0 <= score /\ score <= 1 /\ l = level score.
Proof.
  unfold RegionRiskScorer.
  destruct (validWeights weights); simpl; [|discriminate].
  destruct (validScores rawScores); simpl; [|discriminate].
  intros [= <- <-]. pose proof (clamp_range (weightedSum weights rawScores)).
  tauto.
Qed.

Lemma RegionRiskScorer_bad_weights rawScores :
  RegionRiskScorer [("political_stability"%string, 0.5)] rawScores
  = Fail ConfigurationError.
Proof. reflexivity. Qed.

End RegionRisk.



(** The pages label the score of the example High: 0.635 is not below the
    upper boundary 0.6 of their [getRiskLevel]. *)
Example example_score_on_the_pages :
  RiskAssessment.getRiskLevel 0.635 = High /\
  Dashboard.getRiskLevel 0.635 = High.
Proof. split; reflexivity. Qed.

(** ** The global risk level *)

Section GlobalRisk.

Import Engine.

Lemma maxLevel_rank (a b : Level) :
  rank (maxLevel a b) = Nat.max (rank a) (rank b).
Proof. destruct a, b; reflexivity. Qed.

Lemma maxLevel_choice (a b : Level) : maxLevel a b = a \/ maxLevel a b = b.
Proof. destruct a, b; auto. Qed.

Lemma globalRiskLevel_upper (levels : list Level) (l : Level) :
  In l levels -> (rank l <= rank (globalRiskLevel levels))%nat.
Proof.
  induction levels as [|x rest IH]; simpl; [tauto|].
  rewrite maxLevel_rank. intros [->|H]; [lia|]. specialize (IH H). lia.
Qed.

Lemma globalRiskLevel_attained (levels : list Level) :
  levels <> [] -> In (globalRiskLevel levels) levels.
Proof.
  induction levels as [|x rest IH]; [congruence|]. intros _. simpl.
  destruct (maxLevel_choice x (globalRiskLevel rest)) as [E | E];
    [rewrite E; now left|].
  destruct rest as [|y rest'].
  - left. destruct x; reflexivity.
  - rewrite E. right. apply IH. discriminate.
Qed.

(** One High region is enough for a High headline level. *)
Lemma globalRiskLevel_high (levels : list Level) :
  In High levels -> globalRiskLevel levels = High.
Proof.
  intro H. apply globalRiskLevel_upper in H.
  destruct (globalRiskLevel levels); simpl in H; try lia. reflexivity.
Qed.

End GlobalRisk.

(** C6.  The global risk level is the maximum of the regions' levels in
    the order Low < Medium < High: no region's level is above it and, when
    a region was requested, it is the level of one of them; the levels
    Low, Medium, High give High. *)
Theorem globalRiskLevel_is_maximum (levels : list Level) :
  (forall l, In l levels ->
     (Engine.rank l <= Engine.rank (Engine.globalRiskLevel levels))%nat) /\
  (levels <> [] -> In (Engine.globalRiskLevel levels) levels) /\
  Engine.globalRiskLevel [Low; Medium; High] = High.
Proof.
  split; [intros l; apply globalRiskLevel_upper|].
  split; [apply globalRiskLevel_attained | reflexivity].
Qed.

Lemma globalRiskLevel_is_maximum_witness :
  In Medium [Low; Low; Medium] /\
  (Engine.rank Medium <= Engine.rank (Engine.globalRiskLevel [Low; Low; Medium]))%nat /\
  [Low; Low; Medium] <> [] /\
  In (Engine.globalRiskLevel [Low; Low; Medium]) [Low; Low; Medium].
Proof.
  destruct (globalRiskLevel_is_maximum [Low; Low; Medium]) as (Hub & Hin & _).
  assert (Hm : In Medium [Low; Low; Medium]) by (simpl; tauto).
  assert (Hne : [Low; Low; Medium] <> []) by discriminate.
  split; [exact Hm|]. split; [exact (Hub Medium Hm)|].
  split; [exact Hne | exact (Hin Hne)].
Defined.

(** ** Trends *)

Section Trends.

Import Engine.

Lemma Qabs_lt_iff (x y : Q) : Qabs x < y <-> - y < x /\ x < y.
Proof. apply Qabs_Qlt_condition. Qed.

Lemma Qabs_ge_iff (x y : Q) : y <= Qabs x <-> x <= - y \/ y <= x.
Proof.
  split.
  - intro H. destruct (Qlt_le_dec x 0) as [Hneg | Hpos].
    + left. rewrite Qabs_neg in H by lra. lra.
    + right. rewrite Qabs_pos in H by lra. exact H.
  - intros [H | H]; apply Qnot_lt_le; intro Hlt;
      apply Qabs_lt_iff in Hlt; lra.
Qed.

Lemma classifyDelta_cases (t previous latest : Q) :
  0 < t ->
  (classifyDelta t previous latest = stable <-> Qabs (latest - previous) < t) /\
  (classifyDelta t previous latest = increasing <->
     0 < latest - previous /\ t <= Qabs (latest - previous)) /\
  (classifyDelta t previous latest = decreasing <->
     latest - previous < 0 /\ t <= Qabs (latest - previous)).
Proof.
  intro Ht. unfold classifyDelta. cbv zeta.
  set (delta := latest - previous).
  destruct (Qabs delta <? t) eqn:E.
  - apply NumFacts.ltb_lt in E.
    repeat split; intros; try discriminate; try reflexivity; try tauto;
      exfalso; lra.
  - apply NumFacts.ltb_ge in E. pose proof E as E'.
    apply Qabs_ge_iff in E'.
    cmp_cases; repeat split; intros; try discriminate; try reflexivity;
      try assumption; exfalso; lra.
Qed.

(** Only the last two snapshots matter. *)
Lemma TrendClassifier_last_two (t : Q) (older : list Q) (previous latest : Q) :
  TrendClassifier t (older ++ [previous; latest]) = classifyDelta t previous latest.
Proof. unfold TrendClassifier. now rewrite rev_app_distr. Qed.

Lemma TrendClassifier_single (t s : Q) : TrendClassifier t [s] = stable.
Proof. reflexivity. Qed.

Lemma TrendClassifier_repeated (t s : Q) : 0 < t -> TrendClassifier t [s; s] = stable.
Proof.
  intro Ht. change (classifyDelta t s s = stable).
  apply (classifyDelta_cases t s s Ht).
  assert (H0 : s - s == 0) by ring. rewrite H0. exact Ht.
Qed.

End Trends.

(** C8.  For a positive threshold (0.03 by default) and two successive
    snapshots, the trend is stable exactly when |latest - previous| is
    below the threshold, increasing exactly when the difference is positive
    and at least the threshold in magnitude, decreasing exactly when it is
    negative and at least the threshold in magnitude; a single snapshot,
    and a snapshot repeated, give stable. *)
Theorem trend_classification (t previous latest : Q) :
  0 < t ->
  (Engine.TrendClassifier t [previous; latest] = Engine.stable <->
     Qabs (latest - previous) < t) /\
  (Engine.TrendClassifier t [previous; latest] = Engine.increasing <->
     0 < latest - previous /\ t <= Qabs (latest - previous)) /\
  (Engine.TrendClassifier t [previous; latest] = Engine.decreasing <->
     latest - previous < 0 /\ t <= Qabs (latest - previous)) /\
  Engine.TrendClassifier t [latest] = Engine.stable /\
  Engine.TrendClassifier t [latest; latest] = Engine.stable.
Proof.
  intro Ht.
  change (Engine.TrendClassifier t [previous; latest])
    with (Engine.classifyDelta t previous latest).
  pose proof (classifyDelta_cases t previous latest Ht) as (Hs & Hi & Hd).
  split; [exact Hs|]. split; [exact Hi|]. split; [exact Hd|].
  split; [reflexivity | exact (TrendClassifier_repeated t latest Ht)].
Qed.

Lemma trend_classification_witness :
  0 < Engine.defaultThreshold /\
  Engine.TrendClassifier Engine.defaultThreshold [0.45; 0.47] = Engine.stable /\
  Engine.TrendClassifier Engine.defaultThreshold [0.45; 0.48] = Engine.increasing /\
  Engine.TrendClassifier Engine.defaultThreshold [0.45; 0.42] = Engine.decreasing.
Proof.
  assert (Ht : 0 < Engine.defaultThreshold) by reflexivity.
  split; [exact Ht|].
  split; [apply (trend_classification Engine.defaultThreshold 0.45 0.47 Ht); reflexivity|].
  split.
  - apply (trend_classification Engine.defaultThreshold 0.45 0.48 Ht).
    split; [reflexivity | discriminate].
  - apply (trend_classification Engine.defaultThreshold 0.45 0.42 Ht).
    split; [reflexivity | discriminate].
Defined.

(** * Further properties of the pages *)

(** ** The region and sector checkboxes *)

Section SelectionFacts.

Import Selection.

Lemma includes_In (selected : list string) (x : string) :
  includes selected x = true <-> In x selected.
Proof.
  unfold includes. rewrite existsb_exists. split.
  - intros (y & Hy & E). apply String.eqb_eq in E. now subst.
  - intro H. exists x. split; [exact H | apply String.eqb_refl].
Qed.

Lemma includes_not_In (selected : list string) (x : string) :
  includes selected x = false <-> ~ In x selected.
Proof. rewrite <- includes_In. now destruct (includes selected x). Qed.

Lemma includes_app (a b : list string) (x : string) :
  includes (a ++ b) x = includes a x || includes b x.
Proof. unfold includes. apply existsb_app. Qed.

Lemma includes_filter_other (selected : list string) (x y : string) :
  y <> x ->
  includes (List.filter (fun r => negb (String.eqb r x)) selected) y
  = includes selected y.
Proof.
  intro Hne. induction selected as [|r rest IH]; [reflexivity|].
  simpl. destruct (String.eqb r x) eqn:E; simpl.
  - apply String.eqb_eq in E. subst r.
    rewrite IH. apply String.eqb_neq in Hne. now rewrite Hne.
  - now rewrite IH.
Qed.

Lemma includes_filter_self (selected : list string) (x : string) :
  includes (List.filter (fun r => negb (String.eqb r x)) selected) x = false.
Proof.
  apply includes_not_In. rewrite filter_In. intros [_ H].
  now rewrite String.eqb_refl in H.
Qed.

Lemma filter_absent (selected : list string) (x : string) :
  ~ In x selected ->
  List.filter (fun r => negb (String.eqb r x)) selected = selected.
Proof.
  induction selected as [|r rest IH]; [reflexivity|]. simpl. intro H.
  destruct (String.eqb r x) eqn:E.
  - apply String.eqb_eq in E. tauto.
  - simpl. f_equal. apply IH. tauto.
Qed.

Lemma NoDup_filter_keep {A} (f : A -> bool) (l : list A) :
  List.NoDup l -> List.NoDup (List.filter f l).
Proof.
  induction 1 as [|a l Ha Hl IH]; simpl; [constructor|].
  destruct (f a); [|exact IH]. constructor; [|exact IH].
  rewrite filter_In. tauto.
Qed.

End SelectionFacts.

(** X1.  A click on the box of [x] flips whether [x] is selected and leaves
    every other entry selected or not as it was. *)
Theorem click_flips_only_its_box (x y : string) (selected : list string) :
  Selection.includes (Selection.click x selected) x
    = negb (Selection.includes selected x) /\
  (y <> x ->
   Selection.includes (Selection.click x selected) y
     = Selection.includes selected y).
Proof.
  unfold Selection.click, Selection.onChange.
  destruct (Selection.includes selected x) eqn:E; simpl; split.
  - apply includes_filter_self.
  - intro Hne. now apply includes_filter_other.
  - rewrite includes_app, E. simpl. unfold Selection.includes. simpl.
    now rewrite String.eqb_refl.
  - intro Hne. rewrite includes_app. unfold Selection.includes at 2. simpl.
    apply String.eqb_neq in Hne. rewrite Hne. now rewrite !orb_false_r.
Qed.

Lemma click_flips_only_its_box_witness :
  "Africa"%string <> "Europe"%string /\
  Selection.includes
    (Selection.click "Europe" ["North America"; "Europe"]%string) "Africa"
  = Selection.includes ["North America"; "Europe"]%string "Africa".
Proof.
  assert (Hne : "Africa"%string <> "Europe"%string) by discriminate.
  split; [exact Hne|].
  exact (proj2 (click_flips_only_its_box "Europe" "Africa"
                  ["North America"; "Europe"]%string) Hne).
Defined.

(** X2.  Clicking keeps a selection free of duplicates. *)
Theorem click_keeps_NoDup (x : string) (selected : list string) :
  List.NoDup selected -> List.NoDup (Selection.click x selected).
Proof.
  intro Hnd. unfold Selection.click, Selection.onChange.
  destruct (Selection.includes selected x) eqn:E; simpl.
  - now apply NoDup_filter_keep.
  - apply includes_not_In in E. apply List.NoDup_app.
    + exact Hnd.
    + constructor; [simpl; tauto | constructor].
    + intros a Ha [<- | []]. exact (E Ha).
Qed.

Lemma click_keeps_NoDup_witness :
  List.NoDup ["North America"; "Europe"]%string /\
  List.NoDup (Selection.click "Africa" ["North America"; "Europe"]%string).
Proof.
  assert (Hnd : List.NoDup ["North America"; "Europe"]%string).
  { repeat constructor; simpl; intros H; repeat destruct H as [H | H];
      try discriminate H; exact H. }
  split; [exact Hnd | exact (click_keeps_NoDup "Africa" _ Hnd)].
Defined.

(** X3.  Checking a box that was clear and clearing it again gives back the
    selection as it was. *)
Theorem click_twice_unselected (x : string) (selected : list string) :
  Selection.includes selected x = false ->
  Selection.click x (Selection.click x selected) = selected.
Proof.
  intro E. pose proof E as Hnot. apply includes_not_In in Hnot.
  unfold Selection.click at 2. rewrite E. simpl.
  unfold Selection.click. rewrite includes_app.
  replace (Selection.includes [x] x) with true
    by (unfold Selection.includes; simpl; now rewrite String.eqb_refl).
  rewrite orb_true_r. simpl. rewrite List.filter_app. simpl.
  rewrite String.eqb_refl. simpl. rewrite app_nil_r.
  now apply filter_absent.
Qed.

Lemma click_twice_unselected_witness :
  Selection.includes ["North America"; "Europe"]%string "Africa" = false /\
  Selection.click "Africa"
    (Selection.click "Africa" ["North America"; "Europe"]%string)
  = ["North America"; "Europe"]%string.
Proof.
  split; [reflexivity|].
  exact (click_twice_unselected "Africa" ["North America"; "Europe"]%string eq_refl).
Defined.

(** X4.  Clearing a selected box and checking it again does not restore
    the order: every copy of the entry is removed and one is appended at
    the end. *)
Theorem click_twice_selected (x : string) (selected : list string) :
  Selection.includes selected x = true ->
  Selection.click x (Selection.click x selected)
  = List.filter (fun r => negb (String.eqb r x)) selected ++ [x].
Proof.
  intro E. unfold Selection.click at 2. rewrite E. simpl.
  unfold Selection.click. rewrite includes_filter_self. reflexivity.
Qed.

Lemma click_twice_selected_witness :
  Selection.includes ["North America"; "Europe"; "Asia-Pacific"]%string
    "North America" = true /\
  Selection.click "North America"
    (Selection.click "North America"
       ["North America"; "Europe"; "Asia-Pacific"]%string)
  = ["Europe"; "Asia-Pacific"; "North America"]%string.
Proof.
  split; [reflexivity|].
  exact (click_twice_selected "North America"
           ["North America"; "Europe"; "Asia-Pacific"]%string eq_refl).
Defined.

(** ** The interceptors of the API client *)

Section ApiFacts.

Import Api.

Lemma onRequest_no_token (browser : Browser) (config : Config) :
  localStorage browser !! "authToken"%string = None ->
  onRequest browser config = config.
Proof. intro H. unfold onRequest. now rewrite H. Qed.

Lemma onRequest_token (browser : Browser) (config : Config) (token : string) :
  localStorage browser !! "authToken"%string = Some token ->
  token <> ""%string ->
  onRequest browser config
  = {| url := url config;
       headers := <[ "Authorization"%string := ("Bearer " ++ token)%string ]>
                    (headers config) |}.
Proof.
  intros H Hne. unfold onRequest. rewrite H.
  apply String.eqb_neq in Hne. now rewrite Hne.
Qed.

End ApiFacts.

(** X5.  The request interceptor sets the header [Authorization] to
    "Bearer " followed by the stored token when a non-empty token is
    stored under [authToken]; it never changes the address or any other
    header, and with no token or an empty one it returns the request as it
    got it. *)
Theorem onRequest_attaches_token (browser : Api.Browser) (config : Api.Config) :
  (forall token,
     Api.localStorage browser !! "authToken"%string = Some token ->
     token <> ""%string ->
     Api.headers (Api.onRequest browser config) !! "Authorization"%string
       = Some ("Bearer " ++ token)%string) /\
  (Api.localStorage browser !! "authToken"%string = None \/
   Api.localStorage browser !! "authToken"%string = Some ""%string ->
   Api.onRequest browser config = config) /\
  (forall h, h <> "Authorization"%string ->
     Api.headers (Api.onRequest browser config) !! h = Api.headers config !! h) /\
  Api.url (Api.onRequest browser config) = Api.url config.
Proof.
  repeat split.
  - intros token H Hne. rewrite (onRequest_token _ _ _ H Hne). simpl.
    apply lookup_insert_eq.
  - intros [H | H]; unfold Api.onRequest; now rewrite H.
  - intros h Hh. unfold Api.onRequest.
    destruct (Api.localStorage browser !! "authToken"%string) as [token|];
      [|reflexivity].
    destruct (String.eqb token ""); [reflexivity|]. simpl.
    now apply lookup_insert_ne.
  - unfold Api.onRequest.
    destruct (Api.localStorage browser !! "authToken"%string) as [token|];
      [|reflexivity].
    now destruct (String.eqb token "").
Qed.

Lemma onRequest_attaches_token_witness :
  (<[ "authToken"%string := "abc"%string ]> (∅ : gmap string string))
    !! "authToken"%string = Some "abc"%string /\
  "abc"%string <> ""%string /\
  Api.headers
    (Api.onRequest
       {| Api.localStorage := <[ "authToken"%string := "abc"%string ]> ∅;
          Api.location := "/" |}
       {| Api.url := "/news/latest"; Api.headers := Api.defaultHeaders |})
    !! "Authorization"%string
  = Some "Bearer abc"%string.
Proof.
  assert (H1 : (<[ "authToken"%string := "abc"%string ]> (∅ : gmap string string))
                 !! "authToken"%string = Some "abc"%string) by reflexivity.
  assert (H2 : "abc"%string <> ""%string) by discriminate.
  split; [exact H1|]. split; [exact H2|].
  exact (proj1 (onRequest_attaches_token
                  {| Api.localStorage := <[ "authToken"%string := "abc"%string ]> ∅;
                     Api.location := "/" |}
                  {| Api.url := "/news/latest"; Api.headers := Api.defaultHeaders |})
               "abc"%string H1 H2).
Defined.

(** X6.  A response with status 401 removes the stored token, keeps every
    other stored key, sends the browser to /login and still rejects with
    the same error; the next request then goes out as it is, without a
    token. *)
Theorem unauthorized_logs_out
    (error : Api.AxiosError) (browser : Api.Browser) (config : Api.Config) :
  Api.status error = Some 401%Z ->
  snd (Api.onResponseError error browser) = error /\
  Api.location (fst (Api.onResponseError error browser)) = "/login"%string /\
  Api.localStorage (fst (Api.onResponseError error browser))
    !! "authToken"%string = None /\
  (forall k, k <> "authToken"%string ->
     Api.localStorage (fst (Api.onResponseError error browser)) !! k
     = Api.localStorage browser !! k) /\
  Api.onRequest (fst (Api.onResponseError error browser)) config = config.
Proof.
  intro H. unfold Api.onResponseError. rewrite H. simpl.
  assert (Hgone : delete "authToken"%string (Api.localStorage browser)
                    !! "authToken"%string = None) by apply lookup_delete_eq.
  repeat split.
  - exact Hgone.
  - intros k Hk. now apply lookup_delete_ne.
  - now apply onRequest_no_token.
Qed.

Lemma unauthorized_logs_out_witness :
  Api.status {| Api.message := "Unauthorized"; Api.status := Some 401%Z |}
    = Some 401%Z /\
  Api.onRequest
    (fst (Api.onResponseError
            {| Api.message := "Unauthorized"; Api.status := Some 401%Z |}
            {| Api.localStorage := <[ "authToken"%string := "abc"%string ]> ∅;
               Api.location := "/" |}))
    {| Api.url := "/news/latest"; Api.headers := Api.defaultHeaders |}
  = {| Api.url := "/news/latest"; Api.headers := Api.defaultHeaders |}.
Proof.
  split; [reflexivity|].
  apply (unauthorized_logs_out
           {| Api.message := "Unauthorized"; Api.status := Some 401%Z |}
           {| Api.localStorage := <[ "authToken"%string := "abc"%string ]> ∅;
              Api.location := "/" |}
           {| Api.url := "/news/latest"; Api.headers := Api.defaultHeaders |}
           eq_refl).
Defined.

(** X7.  Any other failure, a network error without a response included,
    leaves the stored data and the location alone and is passed on
    unchanged. *)
Theorem other_errors_pass_through (error : Api.AxiosError) (browser : Api.Browser) :
  Api.status error <> Some 401%Z ->
  Api.onResponseError error browser = (browser, error).
Proof.
  intro H. unfold Api.onResponseError.
  destruct (Api.status error) as [z|]; [|reflexivity].
  destruct z as [|p|p]; try reflexivity.
  destruct (Pos.eq_dec p 401%positive) as [->|Hp]; [congruence|].
  do 9 (destruct p as [p|p|]; try reflexivity). congruence.
Qed.

Lemma other_errors_pass_through_witness :
  Api.status {| Api.message := "Network Error"; Api.status := None |}
    <> Some 401%Z /\
  Api.onResponseError
    {| Api.message := "Network Error"; Api.status := None |}
    {| Api.localStorage := <[ "authToken"%string := "abc"%string ]> ∅;
       Api.location := "/" |}
  = ({| Api.localStorage := <[ "authToken"%string := "abc"%string ]> ∅;
        Api.location := "/" |},
     {| Api.message := "Network Error"; Api.status := None |}).
Proof.
  assert (H : Api.status {| Api.message := "Network Error"; Api.status := None |}
              <> Some 401%Z) by discriminate.
  split; [exact H|].
  exact (other_errors_pass_through _ _ H).
Defined.

(** ** The settings page *)

(** X8.  Changing an API key stores the value under that key, keeps the
    other keys and every other setting, and a later change of the same key
    replaces the earlier one.  Changing a notification switch does the same
    on the switches: the switch is set, the other switches and every other
    setting are kept, a later change of the same switch replaces the
    earlier one.  The two handlers commute. *)
Theorem settings_field_updates
    (key key' value value' : string) (n n' : string) (b b' : bool)
    (prev : Settings.SettingsState) :
  (Settings.apiKeys (Settings.handleApiKeyChange key value prev) !! key = Some value /\
   (key' <> key ->
    Settings.apiKeys (Settings.handleApiKeyChange key value prev) !! key'
    = Settings.apiKeys prev !! key') /\
   Settings.notifications (Settings.handleApiKeyChange key value prev)
   = Settings.notifications prev /\
   Settings.regions (Settings.handleApiKeyChange key value prev) = Settings.regions prev /\
   Settings.sectors (Settings.handleApiKeyChange key value prev) = Settings.sectors prev /\
   Settings.refreshInterval (Settings.handleApiKeyChange key value prev)
   = Settings.refreshInterval prev /\
   Settings.dataRetention (Settings.handleApiKeyChange key value prev)
   = Settings.dataRetention prev /\
   Settings.handleApiKeyChange key value' (Settings.handleApiKeyChange key value prev)
   = Settings.handleApiKeyChange key value' prev) /\
  (Settings.notifications (Settings.handleNotificationChange n b prev) !! n = Some b /\
   (n' <> n ->
    Settings.notifications (Settings.handleNotificationChange n b prev) !! n'
    = Settings.notifications prev !! n') /\
   Settings.apiKeys (Settings.handleNotificationChange n b prev)
   = Settings.apiKeys prev /\
   Settings.regions (Settings.handleNotificationChange n b prev) = Settings.regions prev /\
   Settings.sectors (Settings.handleNotificationChange n b prev) = Settings.sectors prev /\
   Settings.refreshInterval (Settings.handleNotificationChange n b prev)
   = Settings.refreshInterval prev /\
   Settings.dataRetention (Settings.handleNotificationChange n b prev)
   = Settings.dataRetention prev /\
   Settings.handleNotificationChange n b' (Settings.handleNotificationChange n b prev)
   = Settings.handleNotificationChange n b' prev) /\
  Settings.handleNotificationChange n b (Settings.handleApiKeyChange key value prev)
  = Settings.handleApiKeyChange key value (Settings.handleNotificationChange n b prev).
Proof.
  unfold Settings.handleApiKeyChange, Settings.handleNotificationChange. simpl.
  split; [|split; [|reflexivity]].
  - split; [apply lookup_insert_eq|].
    split; [intro H; now apply lookup_insert_ne|].
    do 5 (split; [reflexivity|]). f_equal. apply insert_insert_eq.
  - split; [apply lookup_insert_eq|].
    split; [intro H; now apply lookup_insert_ne|].
    do 5 (split; [reflexivity|]). f_equal. apply insert_insert_eq.
Qed.

Lemma settings_field_updates_witness :
  "yahoo"%string <> "openai"%string /\
  Settings.apiKeys
    (Settings.handleApiKeyChange "openai" "sk-1" Settings.initialSettings)
    !! "yahoo"%string
  = Settings.apiKeys Settings.initialSettings !! "yahoo"%string /\
  "alerts"%string <> "push"%string /\
  Settings.notifications
    (Settings.handleNotificationChange "push" true Settings.initialSettings)
    !! "alerts"%string
  = Settings.notifications Settings.initialSettings !! "alerts"%string.
Proof.
  assert (H : "yahoo"%string <> "openai"%string) by discriminate.
  assert (H' : "alerts"%string <> "push"%string) by discriminate.
  destruct (settings_field_updates "openai" "yahoo" "sk-1" "sk-1"
              "push" "alerts" true true Settings.initialSettings)
    as ((_ & Hk & _) & (_ & Hn & _) & _).
  split; [exact H|]. split; [exact (Hk H)|]. split; [exact H'|]. exact (Hn H').
Defined.

(** X9.  Saving writes the serialised settings under [gma-settings] and
    keeps every other stored key, so requests stay authorised as before;
    saving again replaces what was saved. *)
Theorem handleSave_stores_settings
    (stringify : Settings.SettingsState -> string)
    (s1 s2 : Settings.SettingsState) (browser : Api.Browser) (config : Api.Config) :
  Api.localStorage (fst (Settings.handleSave stringify s1 browser))
    !! "gma-settings"%string = Some (stringify s1) /\
  (forall k, k <> "gma-settings"%string ->
     Api.localStorage (fst (Settings.handleSave stringify s1 browser)) !! k
     = Api.localStorage browser !! k) /\
  Api.onRequest (fst (Settings.handleSave stringify s1 browser)) config
  = Api.onRequest browser config /\
  fst (Settings.handleSave stringify s2 (fst (Settings.handleSave stringify s1 browser)))
  = fst (Settings.handleSave stringify s2 browser).
Proof.
  unfold Settings.handleSave. simpl. repeat split.
  - apply lookup_insert_eq.
  - intros k Hk. now apply lookup_insert_ne.
  - unfold Api.onRequest. simpl. now rewrite lookup_insert_ne by discriminate.
  - f_equal. apply insert_insert_eq.
Qed.

(** X10.  A confirmed "Clear Data" empties the storage: the saved settings
    and the login token are both gone, so the next request goes out without
    a token; the location is kept.  A declined one changes nothing and
    shows no toast. *)
Theorem clearData_forgets_everything
    (stringify : Settings.SettingsState -> string)
    (settings : Settings.SettingsState) (browser : Api.Browser)
    (config : Api.Config) (k : string) :
  Api.localStorage (fst (Settings.clearData true browser)) !! k = None /\
  Api.localStorage
    (fst (Settings.clearData true (fst (Settings.handleSave stringify settings browser))))
    !! "gma-settings"%string = None /\
  Api.onRequest (fst (Settings.clearData true browser)) config = config /\
  Api.location (fst (Settings.clearData true browser)) = Api.location browser /\
  Settings.clearData false browser = (browser, None).
Proof.
  unfold Settings.clearData. simpl. repeat split; try apply lookup_empty.
Qed.

(** ** The real-time page *)

(** X11.  A refresh replaces the news and the market data whatever was
    held before: with the payloads of the two requests (an empty list for a
    missing payload) when both are fulfilled, nothing being reported, and
    with the demonstration data when either is rejected.  In both cases it
    clears the loading flag and leaves the analysis in place, so an
    analysis made from the earlier data stays on the page. *)
Theorem fetchData_overwrites
    (newsReq : RealTimeAnalysis.Settled
                 (RealTimeAnalysis.Response (list RealTimeAnalysis.NewsItem)))
    (marketReq : RealTimeAnalysis.Settled
                 (RealTimeAnalysis.Response (list RealTimeAnalysis.MarketItem)))
    (st st' : RealTimeAnalysis.State) :
  (forall newsRes marketRes,
     newsReq = RealTimeAnalysis.Fulfilled newsRes ->
     marketReq = RealTimeAnalysis.Fulfilled marketRes ->
     RealTimeAnalysis.news (RealTimeAnalysis.fetchData newsReq marketReq st)
     = RealTimeAnalysis.orEmpty (RealTimeAnalysis.data newsRes) /\
     RealTimeAnalysis.marketData (RealTimeAnalysis.fetchData newsReq marketReq st)
     = RealTimeAnalysis.orEmpty (RealTimeAnalysis.data marketRes) /\
     RealTimeAnalysis.toasts (RealTimeAnalysis.fetchData newsReq marketReq st)
     = RealTimeAnalysis.toasts st /\
     RealTimeAnalysis.console (RealTimeAnalysis.fetchData newsReq marketReq st)
     = RealTimeAnalysis.console st) /\
  (newsReq = RealTimeAnalysis.Rejected \/ marketReq = RealTimeAnalysis.Rejected ->
     RealTimeAnalysis.news (RealTimeAnalysis.fetchData newsReq marketReq st)
     = RealTimeAnalysis.mockNews /\
     RealTimeAnalysis.marketData (RealTimeAnalysis.fetchData newsReq marketReq st)
     = RealTimeAnalysis.mockMarketData) /\
  RealTimeAnalysis.news (RealTimeAnalysis.fetchData newsReq marketReq st)
  = RealTimeAnalysis.news (RealTimeAnalysis.fetchData newsReq marketReq st') /\
  RealTimeAnalysis.marketData (RealTimeAnalysis.fetchData newsReq marketReq st)
  = RealTimeAnalysis.marketData (RealTimeAnalysis.fetchData newsReq marketReq st') /\
  RealTimeAnalysis.loading (RealTimeAnalysis.fetchData newsReq marketReq st) = false /\
  RealTimeAnalysis.analysis (RealTimeAnalysis.fetchData newsReq marketReq st)
  = RealTimeAnalysis.analysis st /\
  RealTimeView.panelShown (RealTimeAnalysis.fetchData newsReq marketReq st)
  = RealTimeView.panelShown st.
Proof.
  split; [|split].
  - intros newsRes marketRes -> ->. repeat split; reflexivity.
  - intro H. unfold RealTimeAnalysis.fetchData.
    rewrite (Promise_all_rejected _ _ H). split; reflexivity.
  - unfold RealTimeView.panelShown, RealTimeAnalysis.fetchData.
    destruct (RealTimeAnalysis.Promise_all newsReq marketReq) as [[n m]|];
      repeat split; reflexivity.
Qed.

Lemma fetchData_overwrites_witness :
  RealTimeAnalysis.Fulfilled {| RealTimeAnalysis.data := Some RealTimeAnalysis.mockNews |}
  = RealTimeAnalysis.Fulfilled {| RealTimeAnalysis.data := Some RealTimeAnalysis.mockNews |} /\
  RealTimeAnalysis.Fulfilled
    ({| RealTimeAnalysis.data := None |}
     : RealTimeAnalysis.Response (list RealTimeAnalysis.MarketItem))
  = RealTimeAnalysis.Fulfilled {| RealTimeAnalysis.data := None |} /\
  RealTimeAnalysis.marketData
    (RealTimeAnalysis.fetchData
       (RealTimeAnalysis.Fulfilled
          {| RealTimeAnalysis.data := Some RealTimeAnalysis.mockNews |})
       (RealTimeAnalysis.Fulfilled {| RealTimeAnalysis.data := None |})
       (RealTimeAnalysis.setMarketData [Samples.liveQuote]
          RealTimeAnalysis.initialState))
  = [].
Proof.
  split; [reflexivity|]. split; [reflexivity|].
  destruct (fetchData_overwrites
              (RealTimeAnalysis.Fulfilled
                 {| RealTimeAnalysis.data := Some RealTimeAnalysis.mockNews |})
              (RealTimeAnalysis.Fulfilled {| RealTimeAnalysis.data := None |})
              (RealTimeAnalysis.setMarketData [Samples.liveQuote]
                 RealTimeAnalysis.initialState)
              RealTimeAnalysis.initialState) as (H & _).
  exact (proj1 (proj2 (H _ _ eq_refl eq_refl))).
Defined.

(** X12.  After a fetch in which a request failed, the analysis request is
    sent the demonstration news and market data, and the analysis shown is
    the answer to that request (or the demonstration analysis when it fails
    too). *)
Theorem analysis_after_failed_fetch
    (req : list RealTimeAnalysis.NewsItem -> list RealTimeAnalysis.MarketItem ->
           RealTimeAnalysis.Settled (RealTimeAnalysis.Response RealTimeAnalysis.Analysis))
    (newsReq : RealTimeAnalysis.Settled
                 (RealTimeAnalysis.Response (list RealTimeAnalysis.NewsItem)))
    (marketReq : RealTimeAnalysis.Settled
                 (RealTimeAnalysis.Response (list RealTimeAnalysis.MarketItem)))
    (st : RealTimeAnalysis.State) :
  newsReq = RealTimeAnalysis.Rejected \/ marketReq = RealTimeAnalysis.Rejected ->
  RealTimeAnalysis.analysis
    (RealTimeAnalysis.generateAnalysis req
       (RealTimeAnalysis.fetchData newsReq marketReq st))
  = match req RealTimeAnalysis.mockNews RealTimeAnalysis.mockMarketData with
    | RealTimeAnalysis.Fulfilled response => RealTimeAnalysis.data response
    | RealTimeAnalysis.Rejected => Some RealTimeAnalysis.mockAnalysis
    end.
Proof.
  intro H. unfold RealTimeAnalysis.fetchData.
  rewrite (Promise_all_rejected _ _ H).
  unfold RealTimeAnalysis.generateAnalysis. simpl.
  destruct (req RealTimeAnalysis.mockNews RealTimeAnalysis.mockMarketData);
    reflexivity.
Qed.

Lemma analysis_after_failed_fetch_witness :
  (@RealTimeAnalysis.Rejected
     (RealTimeAnalysis.Response (list RealTimeAnalysis.NewsItem))
   = RealTimeAnalysis.Rejected \/
   RealTimeAnalysis.Fulfilled
     {| RealTimeAnalysis.data := Some [Samples.liveQuote] |}
   = RealTimeAnalysis.Rejected) /\
  RealTimeAnalysis.analysis
    (RealTimeAnalysis.generateAnalysis
       (fun _ _ => RealTimeAnalysis.Rejected)
       (RealTimeAnalysis.fetchData
          RealTimeAnalysis.Rejected
          (RealTimeAnalysis.Fulfilled
             {| RealTimeAnalysis.data := Some [Samples.liveQuote] |})
          RealTimeAnalysis.initialState))
  = Some RealTimeAnalysis.mockAnalysis.
Proof.
  split; [left; reflexivity|].
  exact (analysis_after_failed_fetch
           (fun _ _ => RealTimeAnalysis.Rejected)
           RealTimeAnalysis.Rejected
           (RealTimeAnalysis.Fulfilled
              {| RealTimeAnalysis.data := Some [Samples.liveQuote] |})
           RealTimeAnalysis.initialState (or_introl eq_refl)).
Defined.

(** X13.  Generating an analysis never changes the news or the market data,
    clears the loading flag and shows exactly one toast.  When the request
    is fulfilled the toast reports success and the analysis is the payload
    as it came: with a missing payload the success toast is shown and the
    panel is not. *)
Theorem generateAnalysis_effects
    (req : list RealTimeAnalysis.NewsItem -> list RealTimeAnalysis.MarketItem ->
           RealTimeAnalysis.Settled (RealTimeAnalysis.Response RealTimeAnalysis.Analysis))
    (st : RealTimeAnalysis.State) :
  RealTimeAnalysis.news (RealTimeAnalysis.generateAnalysis req st)
  = RealTimeAnalysis.news st /\
  RealTimeAnalysis.marketData (RealTimeAnalysis.generateAnalysis req st)
  = RealTimeAnalysis.marketData st /\
  RealTimeAnalysis.loading (RealTimeAnalysis.generateAnalysis req st) = false /\
  (exists t,
     RealTimeAnalysis.toasts (RealTimeAnalysis.generateAnalysis req st)
     = t :: RealTimeAnalysis.toasts st) /\
  (forall response,
     req (RealTimeAnalysis.news st) (RealTimeAnalysis.marketData st)
     = RealTimeAnalysis.Fulfilled response ->
     RealTimeAnalysis.analysis (RealTimeAnalysis.generateAnalysis req st)
     = RealTimeAnalysis.data response /\
     RealTimeAnalysis.toasts (RealTimeAnalysis.generateAnalysis req st)
     = RealTimeAnalysis.toast_success "AI analysis generated successfully"
         :: RealTimeAnalysis.toasts st /\
     (RealTimeAnalysis.data response = None ->
      RealTimeView.panelShown (RealTimeAnalysis.generateAnalysis req st) = false)).
Proof.
  unfold RealTimeView.panelShown, RealTimeAnalysis.generateAnalysis. simpl.
  destruct (req (RealTimeAnalysis.news st) (RealTimeAnalysis.marketData st))
    as [r|] eqn:E; simpl.
  - do 3 (split; [reflexivity|]). split; [eexists; reflexivity|].
    intros response [= <-]. do 2 (split; [reflexivity|]).
    intro Hd. now rewrite Hd.
  - do 3 (split; [reflexivity|]). split; [eexists; reflexivity|].
    intros response Hr. discriminate Hr.
Qed.

Lemma generateAnalysis_effects_witness :
  (fun _ _ => RealTimeAnalysis.Fulfilled {| RealTimeAnalysis.data := None |})
    (RealTimeAnalysis.news RealTimeAnalysis.initialState)
    (RealTimeAnalysis.marketData RealTimeAnalysis.initialState)
  = RealTimeAnalysis.Fulfilled
      ({| RealTimeAnalysis.data := None |}
       : RealTimeAnalysis.Response RealTimeAnalysis.Analysis) /\
  RealTimeView.panelShown
    (RealTimeAnalysis.generateAnalysis
       (fun _ _ => RealTimeAnalysis.Fulfilled {| RealTimeAnalysis.data := None |})
       RealTimeAnalysis.initialState) = false.
Proof.
  split; [reflexivity|].
  destruct (generateAnalysis_effects
              (fun _ _ => RealTimeAnalysis.Fulfilled {| RealTimeAnalysis.data := None |})
              RealTimeAnalysis.initialState) as (_ & _ & _ & _ & H).
  exact (proj2 (proj2 (H {| RealTimeAnalysis.data := None |} eq_refl)) eq_refl).
Defined.

(** X14.  When the analysis request fails, the page shows the
    demonstration analysis with an error toast, and its risk badge is the
    Medium one whatever the news and the market data are. *)
Theorem generateAnalysis_on_failure
    (req : list RealTimeAnalysis.NewsItem -> list RealTimeAnalysis.MarketItem ->
           RealTimeAnalysis.Settled (RealTimeAnalysis.Response RealTimeAnalysis.Analysis))
    (st : RealTimeAnalysis.State) :
  req (RealTimeAnalysis.news st) (RealTimeAnalysis.marketData st)
  = RealTimeAnalysis.Rejected ->
  RealTimeAnalysis.generateAnalysis req st =
  {| RealTimeAnalysis.news := RealTimeAnalysis.news st;
     RealTimeAnalysis.marketData := RealTimeAnalysis.marketData st;
     RealTimeAnalysis.analysis := Some RealTimeAnalysis.mockAnalysis;
     RealTimeAnalysis.loading := false;
     RealTimeAnalysis.toasts :=
       RealTimeAnalysis.toast_error "Failed to generate AI analysis"
         :: RealTimeAnalysis.toasts st;
     RealTimeAnalysis.console :=
       "Error generating analysis:"%string :: RealTimeAnalysis.console st |} /\
  option_map (fun a => RealTimeView.riskLevelBadge (RealTimeAnalysis.riskLevel a))
    (RealTimeAnalysis.analysis (RealTimeAnalysis.generateAnalysis req st))
  = Some RealTimeView.badge_warning.
Proof.
  intro H. unfold RealTimeAnalysis.generateAnalysis. simpl. rewrite H.
  split; reflexivity.
Qed.

Lemma generateAnalysis_on_failure_witness :
  (fun _ _ => RealTimeAnalysis.Rejected)
    (RealTimeAnalysis.news RealTimeAnalysis.initialState)
    (RealTimeAnalysis.marketData RealTimeAnalysis.initialState)
  = (RealTimeAnalysis.Rejected
     : RealTimeAnalysis.Settled (RealTimeAnalysis.Response RealTimeAnalysis.Analysis)) /\
  RealTimeAnalysis.analysis
    (RealTimeAnalysis.generateAnalysis
       (fun _ _ => RealTimeAnalysis.Rejected) RealTimeAnalysis.initialState)
  = Some RealTimeAnalysis.mockAnalysis.
Proof.
  split; [reflexivity|].
  rewrite (proj1 (generateAnalysis_on_failure
                    (fun _ _ => RealTimeAnalysis.Rejected)
                    RealTimeAnalysis.initialState eq_refl)).
  reflexivity.
Defined.

(** ** The cards of the risk page *)

(** X15.  Colour, text class and label of a risk always go together: the
    text class that the risk page derives from the hexadecimal colour is
    the class that the dashboard computes directly, and it is the success,
    warning or danger class exactly when the label is Low, Medium or
    High. *)
Theorem risk_colour_matches_level (risk : Q) :
  RiskAssessmentView.riskTextClass risk = Dashboard.getRiskColor risk /\
  (RiskAssessment.getRiskLevel risk = Low <->
     RiskAssessment.getRiskColor risk = "#22c55e"%string /\
     Dashboard.getRiskColor risk = Dashboard.text_success_600) /\
  (RiskAssessment.getRiskLevel risk = Medium <->
     RiskAssessment.getRiskColor risk = "#f59e0b"%string /\
     Dashboard.getRiskColor risk = Dashboard.text_warning_600) /\
  (RiskAssessment.getRiskLevel risk = High <->
     RiskAssessment.getRiskColor risk = "#ef4444"%string /\
     Dashboard.getRiskColor risk = Dashboard.text_danger_600).
Proof.
  unfold RiskAssessmentView.riskTextClass, RiskAssessment.getRiskColor,
    RiskAssessment.getRiskLevel, Dashboard.getRiskColor.
  destruct (risk <? 0.3); [|destruct (risk <? 0.6)]; simpl;
    (split; [reflexivity|]); repeat split; intros;
    try reflexivity; try discriminate;
    try (destruct H as [H _]; discriminate H).
Qed.

(** X16.  The advice follows the 0.5 line and not the label: a High region
    is always told "Immediate attention recommended", a Low region always
    "Monitor for changes", and a Medium region either, according to
    whether its risk is above 0.5. *)
Theorem advice_against_level (item : RiskAssessment.RiskEntry) :
  let r := RiskAssessment.risk item in
  (RiskAssessmentView.advice item = RiskAssessmentView.ImmediateAttention <-> 0.5 < r) /\
  (RiskAssessment.getRiskLevel r = High ->
   RiskAssessmentView.advice item = RiskAssessmentView.ImmediateAttention) /\
  (RiskAssessment.getRiskLevel r = Low ->
   RiskAssessmentView.advice item = RiskAssessmentView.MonitorForChanges) /\
  (RiskAssessment.getRiskLevel r = Medium ->
   (RiskAssessmentView.advice item = RiskAssessmentView.MonitorForChanges <-> r <= 0.5)).
Proof.
  unfold RiskAssessmentView.advice, RiskAssessment.getRiskLevel. cbv zeta.
  cmp_cases; repeat split; intros; try discriminate; try reflexivity; try lra.
Qed.

Lemma advice_against_level_witness :
  RiskAssessment.getRiskLevel 0.45 = Medium /\
  RiskAssessment.getRiskLevel 0.55 = Medium /\
  RiskAssessmentView.advice
    {| RiskAssessment.region := "Asia-Pacific"; RiskAssessment.risk := 0.45;
       RiskAssessment.factors := []; RiskAssessment.trend := "stable" |}
  = RiskAssessmentView.MonitorForChanges /\
  RiskAssessmentView.advice
    {| RiskAssessment.region := "Asia-Pacific"; RiskAssessment.risk := 0.55;
       RiskAssessment.factors := []; RiskAssessment.trend := "stable" |}
  = RiskAssessmentView.ImmediateAttention.
Proof.
  split; [reflexivity|]. split; [reflexivity|]. split.
  - apply (proj2 (proj2 (proj2 (advice_against_level
             {| RiskAssessment.region := "Asia-Pacific"; RiskAssessment.risk := 0.45;
                RiskAssessment.factors := []; RiskAssessment.trend := "stable" |})))
             eq_refl).
    discriminate.
  - apply (proj1 (advice_against_level
             {| RiskAssessment.region := "Asia-Pacific"; RiskAssessment.risk := 0.55;
                RiskAssessment.factors := []; RiskAssessment.trend := "stable" |})).
    reflexivity.
Defined.

(** X17.  Every pie cell has a colour, however many regions there are, and
    the colours repeat with period six. *)
Theorem cellColor_defined (index : nat) :
  (exists c, RiskAssessmentView.cellColor index = Some c /\
             In c RiskAssessmentView.COLORS) /\
  RiskAssessmentView.cellColor (index + 6) = RiskAssessmentView.cellColor index.
Proof.
  unfold RiskAssessmentView.cellColor. split.
  - assert (Hlt : (index mod length RiskAssessmentView.COLORS
                   < length RiskAssessmentView.COLORS)%nat)
      by (apply Nat.mod_upper_bound; discriminate).
    destruct (nth_error RiskAssessmentView.COLORS
                (index mod length RiskAssessmentView.COLORS)) as [c|] eqn:E.
    + exists c. split; [reflexivity|]. eapply nth_error_In, E.
    + apply nth_error_None in E. lia.
  - f_equal. change (length RiskAssessmentView.COLORS) with 6%nat.
    replace (index + 6)%nat with (index + 1 * 6)%nat by lia.
    now rewrite Nat.Div0.mod_add.
Qed.

(** ** Market impact: colours, levels and lists *)

(** X18.  Colour, level and recommendation of an impact always go
    together: danger, High and "Monitor Closely"; warning, Medium and
    "Watch for Changes"; success, Low and "Stable". *)
Theorem impact_badges_agree (item : MarketImpact.ImpactItem) :
  let i := MarketImpact.impact item in
  (MarketImpact.recommendation item = MarketImpact.MonitorClosely <->
     MarketImpact.getImpactLevel i = High /\
     MarketImpact.getImpactColor i = MarketImpact.text_danger_600) /\
  (MarketImpact.recommendation item = MarketImpact.Watch <->
     MarketImpact.getImpactLevel i = Medium /\
     MarketImpact.getImpactColor i = MarketImpact.text_warning_600) /\
  (MarketImpact.recommendation item = MarketImpact.Stable <->
     MarketImpact.getImpactLevel i = Low /\
     MarketImpact.getImpactColor i = MarketImpact.text_success_600).
Proof.
  unfold MarketImpact.recommendation, MarketImpact.getImpactLevel,
    MarketImpact.getImpactColor. cbv zeta.
  destruct (MarketImpact.impact item >? 0.7);
    [|destruct (MarketImpact.impact item >? 0.4)];
    repeat split; intros; try reflexivity; try discriminate;
    try (destruct H as [H _]; discriminate H).
Qed.

(** X19.  The "High Impact Sectors" list holds exactly the entries whose
    recommendation is "Monitor Closely".  The "Stable Sectors" list holds
    the entries whose recommendation is "Stable" except those whose impact
    is exactly 0.4: such an entry is recommended as stable and listed
    nowhere. *)
Theorem lists_against_recommendation
    (impactData : list MarketImpact.ImpactItem) (item : MarketImpact.ImpactItem) :
  (In item (MarketImpact.highImpactSectors impactData) <->
     In item impactData /\
     MarketImpact.recommendation item = MarketImpact.MonitorClosely) /\
  (In item (MarketImpact.stableSectors impactData) <->
     In item impactData /\
     MarketImpact.recommendation item = MarketImpact.Stable /\
     ~ MarketImpact.impact item == 0.4).
Proof.
  rewrite in_highImpactSectors, in_stableSectors.
  unfold MarketImpact.recommendation.
  destruct (MarketImpact.impact item >? 0.7) eqn:E1;
    [apply NumFacts.gtb_gt in E1 | apply NumFacts.gtb_le in E1];
    [|destruct (MarketImpact.impact item >? 0.4) eqn:E2;
      [apply NumFacts.gtb_gt in E2 | apply NumFacts.gtb_le in E2]].
  - split; [tauto|]. split; [intros [_ H]; lra | intros (_ & H & _); discriminate H].
  - split; split.
    + intros [_ H]; lra.
    + intros [_ H]; discriminate H.
    + intros [_ H]; lra.
    + intros (_ & H & _); discriminate H.
  - split; split.
    + intros [_ H]; lra.
    + intros [_ H]; discriminate H.
    + intros [Hin H]. repeat split; [exact Hin|]. intro Heq. lra.
    + intros (Hin & _ & Hne). split; [exact Hin|].
      destruct (Qle_lt_or_eq _ _ E2) as [Hlt | Heq]; [exact Hlt | contradiction].
Qed.

(** X20.  The sentiment colour of the market-impact page, on its 0..1
    scale: success above 0.6, danger below 0.4, warning on the whole of
    [0.4, 0.6]. *)
Theorem impact_sentiment_colour (sentiment : Q) :
  (MarketImpact.getSentimentColor sentiment = MarketImpact.text_success_600
     <-> 0.6 < sentiment) /\
  (MarketImpact.getSentimentColor sentiment = MarketImpact.text_danger_600
     <-> sentiment < 0.4) /\
  (MarketImpact.getSentimentColor sentiment = MarketImpact.text_warning_600
     <-> 0.4 <= sentiment /\ sentiment <= 0.6).
Proof.
  unfold MarketImpact.getSentimentColor.
  cmp_cases; repeat split; intros; try discriminate; try reflexivity; try lra.
Qed.

(** X21.  The two recommendation lists and the entries with an impact in
    [0.4, 0.7], which are listed nowhere, account for every entry once. *)
Theorem recommendation_lists_count (impactData : list MarketImpact.ImpactItem) :
  (length (MarketImpact.highImpactSectors impactData)
   + length (MarketImpact.stableSectors impactData)
   + length (List.filter
               (fun item => negb (MarketImpact.impact item >? 0.7%Q)%js
                            && negb (MarketImpact.impact item <? 0.4%Q)%js)
               impactData)
   = length impactData)%nat.
Proof.
  unfold MarketImpact.highImpactSectors, MarketImpact.stableSectors.
  induction impactData as [|item rest IH]; [reflexivity|]. simpl.
  destruct (MarketImpact.impact item >? 0.7) eqn:E1;
    destruct (MarketImpact.impact item <? 0.4) eqn:E2; simpl; try lia.
  apply NumFacts.gtb_gt in E1. apply NumFacts.ltb_lt in E2. exfalso. lra.
Qed.

(** ** The news summary of the historical page *)

Section NewsSummaryBounds.

Import HistoricalAnalysis.

Lemma fold_sum_shift (f : SentimentRow -> Q) (l : list SentimentRow) (a : Q) :
  fold_left (fun sum item => sum + f item) l a
  == a + fold_left (fun sum item => sum + f item) l 0.
Proof.
  revert a. induction l as [|row rest IH]; intro a; simpl; [ring|].
  rewrite (IH (a + f row)), (IH (0 + f row)). ring.
Qed.

Lemma reduceSum_cons (f : SentimentRow -> Q) (row : SentimentRow) (rest : list SentimentRow) :
  reduceSum f (row :: rest) == f row + reduceSum f rest.
Proof.
  unfold reduceSum. simpl. rewrite fold_sum_shift. ring.
Qed.

Lemma reduceSum_app (f : SentimentRow -> Q) (a b : list SentimentRow) :
  reduceSum f (a ++ b) == reduceSum f a + reduceSum f b.
Proof.
  induction a as [|row rest IH]; simpl.
  - unfold reduceSum at 2. simpl. ring.
  - rewrite !reduceSum_cons, IH. ring.
Qed.

Lemma len_cons {A} (x : A) (l : list A) : Num.len (x :: l) == 1 + Num.len l.
Proof.
  unfold Num.len. simpl length. rewrite Nat2Z.inj_succ, <- Z.add_1_l.
  now rewrite inject_Z_plus.
Qed.

Lemma reduceSum_bounds (f : SentimentRow -> Q) (l : list SentimentRow) (lo hi : Q) :
  (forall row, In row l -> lo <= f row /\ f row <= hi) ->
  lo * Num.len l <= reduceSum f l /\ reduceSum f l <= hi * Num.len l.
Proof.
  induction l as [|row rest IH]; intro H.
  - change (Num.len (@nil SentimentRow)) with 0.
    change (reduceSum f []) with 0. rewrite !Qmult_0_r. split; apply Qle_refl.
  - rewrite reduceSum_cons, len_cons.
    destruct (H row (or_introl eq_refl)) as [Hlo Hhi].
    destruct IH as [IHlo IHhi]; [intros r Hr; apply H; now right|]. lra.
Qed.

Lemma round_bounds (q : Q) (lo hi : Z) :
  inject_Z lo <= q -> q <= inject_Z hi ->
  (lo <= Num.round q <= hi)%Z.
Proof.
  intros Hlo Hhi. unfold Num.round. split.
  - rewrite <- (Qfloor_Z lo). apply Qfloor_resp_le. lra.
  - assert (H : inject_Z (Qfloor (q + 0.5)) < inject_Z (hi + 1)).
    { pose proof (Qfloor_le (q + 0.5)). rewrite inject_Z_plus.
      change (inject_Z 1) with 1. lra. }
    rewrite <- Zlt_Qlt in H. lia.
Qed.

Lemma roundedMean_bounds (f : SentimentRow -> Q) (l : list SentimentRow) (lo hi : Z) :
  l <> [] ->
  (forall row, In row l -> inject_Z lo <= f row /\ f row <= inject_Z hi) ->
  exists n, roundedMean f l = Percent n /\ (lo <= n <= hi)%Z.
Proof.
  intros Hne H. pose proof (NumFacts.len_pos l Hne) as Hn.
  unfold roundedMean. rewrite (NumFacts.div_pos _ _ Hn).
  eexists. split; [reflexivity|].
  destruct (reduceSum_bounds f l _ _ H) as [Hlo Hhi].
  apply round_bounds.
  - apply Qle_shift_div_l; assumption.
  - apply Qle_shift_div_r; assumption.
Qed.

Lemma totalArticles_reduceSum (l : list SentimentRow) :
  totalArticles l == reduceSum total l.
Proof.
  unfold totalArticles. destruct (Num.len l >? 0) eqn:E; [reflexivity|].
  destruct l as [|row rest]; [reflexivity|].
  apply NumFacts.gtb_le in E.
  pose proof (NumFacts.len_pos (row :: rest)) as Hp.
  assert (0 < Num.len (row :: rest)) by (apply Hp; discriminate). lra.
Qed.

End NewsSummaryBounds.

(** X22.  On a non-empty table of whole, non-negative daily figures with
    sums within [Exact.meanLimit] (where the binary64 mean of the page
    rounds to the same integer), when every day's positive and negative
    figures lie between two integers, so do the rounded averages that the
    news summary shows: figures between 0 and 100 give percentages between
    0 and 100. *)
Theorem news_percentages_bounded
    (historicalData : list HistoricalAnalysis.SentimentRow) (lo hi : Z) :
  historicalData <> [] ->
  Exact.wholeColumn Exact.meanLimit HistoricalAnalysis.positive historicalData ->
  Exact.wholeColumn Exact.meanLimit HistoricalAnalysis.negative historicalData ->
  (forall row, In row historicalData ->
     inject_Z lo <= HistoricalAnalysis.positive row /\
     HistoricalAnalysis.positive row <= inject_Z hi /\
     inject_Z lo <= HistoricalAnalysis.negative row /\
     HistoricalAnalysis.negative row <= inject_Z hi) ->
  (exists n, HistoricalAnalysis.positiveText historicalData
             = HistoricalAnalysis.Percent n /\ (lo <= n <= hi)%Z) /\
  (exists n, HistoricalAnalysis.negativeText historicalData
             = HistoricalAnalysis.Percent n /\ (lo <= n <= hi)%Z).
Proof.
  intros Hne _ _ H.
  assert (Hg : (Num.len historicalData >? 0) = true)
    by (apply NumFacts.gtb_gt, NumFacts.len_pos, Hne).
  unfold HistoricalAnalysis.positiveText, HistoricalAnalysis.negativeText.
  rewrite Hg. split; apply roundedMean_bounds; try exact Hne;
    intros row Hr; specialize (H row Hr); tauto.
Qed.

Lemma mock_columns_whole :
  Exact.wholeColumn Exact.meanLimit HistoricalAnalysis.positive
    HistoricalAnalysis.mockHistoricalData /\
  Exact.wholeColumn Exact.meanLimit HistoricalAnalysis.negative
    HistoricalAnalysis.mockHistoricalData /\
  Exact.wholeColumn Exact.sumLimit HistoricalAnalysis.total
    (HistoricalAnalysis.mockHistoricalData ++ HistoricalAnalysis.mockHistoricalData).
Proof.
  repeat split; try (vm_compute; discriminate); intros row Hr; simpl in Hr;
    repeat (destruct Hr as [<- | Hr];
            [eexists; split; [|simpl; apply Qeq_refl]; simpl; lia|]);
    destruct Hr.
Defined.

Lemma news_percentages_bounded_witness :
  HistoricalAnalysis.mockHistoricalData <> [] /\
  Exact.wholeColumn Exact.meanLimit HistoricalAnalysis.positive
    HistoricalAnalysis.mockHistoricalData /\
  Exact.wholeColumn Exact.meanLimit HistoricalAnalysis.negative
    HistoricalAnalysis.mockHistoricalData /\
  (exists n, HistoricalAnalysis.positiveText HistoricalAnalysis.mockHistoricalData
             = HistoricalAnalysis.Percent n /\ (0 <= n <= 100)%Z).
Proof.
  assert (Hne : HistoricalAnalysis.mockHistoricalData <> []) by discriminate.
  destruct mock_columns_whole as (Hp & Hn & _).
  split; [exact Hne|]. split; [exact Hp|]. split; [exact Hn|].
  apply (news_percentages_bounded HistoricalAnalysis.mockHistoricalData 0 100
           Hne Hp Hn).
  intros row Hr. simpl in Hr.
  repeat (destruct Hr as [<- | Hr]; [simpl; repeat split; discriminate|]).
  destruct Hr.
Defined.

(** X23.  For tables of whole, non-negative article counts that together
    add up to at most [Exact.sumLimit] (where the binary64 additions of the
    page do not round), the number of articles of two
    tables put together is the sum of their numbers, in either order, the
    empty table counting 0. *)
Theorem totalArticles_additive (a b : list HistoricalAnalysis.SentimentRow) :
  Exact.wholeColumn Exact.sumLimit HistoricalAnalysis.total (a ++ b) ->
  HistoricalAnalysis.totalArticles (a ++ b)
  == HistoricalAnalysis.totalArticles a + HistoricalAnalysis.totalArticles b /\
  HistoricalAnalysis.totalArticles (a ++ b)
  == HistoricalAnalysis.totalArticles (b ++ a).
Proof.
  intros _. rewrite !totalArticles_reduceSum, !reduceSum_app. split; ring.
Qed.

Lemma totalArticles_additive_witness :
  Exact.wholeColumn Exact.sumLimit HistoricalAnalysis.total
    (HistoricalAnalysis.mockHistoricalData ++ HistoricalAnalysis.mockHistoricalData) /\
  HistoricalAnalysis.totalArticles
    (HistoricalAnalysis.mockHistoricalData ++ HistoricalAnalysis.mockHistoricalData)
  == HistoricalAnalysis.totalArticles HistoricalAnalysis.mockHistoricalData
     + HistoricalAnalysis.totalArticles HistoricalAnalysis.mockHistoricalData.
Proof.
  destruct mock_columns_whole as (_ & _ & Ht).
  split; [exact Ht|].
  exact (proj1 (totalArticles_additive HistoricalAnalysis.mockHistoricalData
                  HistoricalAnalysis.mockHistoricalData Ht)).
Defined.

(** ** Loading the dashboard *)

Section DashboardFacts.

Import RealTimeAnalysis DashboardPage.

Lemma Promise_all3_rejected {A B C} (p : Settled A) (q : Settled B) (r : Settled C) :
  p = Rejected \/ q = Rejected \/ r = Rejected -> Promise_all3 p q r = Rejected.
Proof.
  intros [-> | [-> | ->]]; [reflexivity | destruct p; reflexivity |].
  destruct p; [destruct q|]; reflexivity.
Qed.

End DashboardFacts.

(** X24.  When any one of the three dashboard requests fails, what the
    other two delivered is dropped: overview, metrics and activity are all
    replaced by the demonstration data, with one error toast. *)
Theorem fetchDashboardData_on_failure
    (overviewReq : RealTimeAnalysis.Settled
                     (RealTimeAnalysis.Response DashboardPage.Overview))
    (metricsReq : RealTimeAnalysis.Settled
                    (RealTimeAnalysis.Response DashboardPage.Metrics))
    (activityReq : RealTimeAnalysis.Settled
                     (RealTimeAnalysis.Response (list DashboardPage.Activity)))
    (st : DashboardPage.State) :
  overviewReq = RealTimeAnalysis.Rejected \/
  metricsReq = RealTimeAnalysis.Rejected \/
  activityReq = RealTimeAnalysis.Rejected ->
  DashboardPage.fetchDashboardData overviewReq metricsReq activityReq st =
  {| DashboardPage.overview := Some DashboardPage.mockOverview;
     DashboardPage.metrics := Some DashboardPage.mockMetrics;
     DashboardPage.activity := Some DashboardPage.mockActivity;
     DashboardPage.loading := false;
     DashboardPage.toasts :=
       RealTimeAnalysis.toast_error "Failed to load dashboard data"
         :: DashboardPage.toasts st;
     DashboardPage.console :=
       "Error fetching dashboard data:"%string :: DashboardPage.console st |}.
Proof.
  intro H. unfold DashboardPage.fetchDashboardData.
  now rewrite (Promise_all3_rejected _ _ _ H).
Qed.

Lemma fetchDashboardData_on_failure_witness :
  (RealTimeAnalysis.Fulfilled {| RealTimeAnalysis.data := Some DashboardPage.mockOverview |}
   = RealTimeAnalysis.Rejected \/
   RealTimeAnalysis.Fulfilled {| RealTimeAnalysis.data := Some DashboardPage.mockMetrics |}
   = RealTimeAnalysis.Rejected \/
   @RealTimeAnalysis.Rejected
     (RealTimeAnalysis.Response (list DashboardPage.Activity))
   = RealTimeAnalysis.Rejected) /\
  DashboardPage.activity
    (DashboardPage.fetchDashboardData
       (RealTimeAnalysis.Fulfilled
          {| RealTimeAnalysis.data := Some DashboardPage.mockOverview |})
       (RealTimeAnalysis.Fulfilled
          {| RealTimeAnalysis.data := Some DashboardPage.mockMetrics |})
       RealTimeAnalysis.Rejected
       DashboardPage.initialState)
  = Some DashboardPage.mockActivity.
Proof.
  split; [right; right; reflexivity|].
  rewrite (fetchDashboardData_on_failure
             (RealTimeAnalysis.Fulfilled
                {| RealTimeAnalysis.data := Some DashboardPage.mockOverview |})
             (RealTimeAnalysis.Fulfilled
                {| RealTimeAnalysis.data := Some DashboardPage.mockMetrics |})
             RealTimeAnalysis.Rejected
             DashboardPage.initialState);
    [reflexivity | right; right; reflexivity].
Defined.

(** X25.  When all three requests are fulfilled the payloads are stored as
    they come and nothing is reported.  A missing metrics payload gives
    empty charts, but a missing activity payload leaves the activity list
    undefined, and the rows of the "Recent Activity" card cannot be
    built. *)
Theorem fetchDashboardData_fulfilled
    (overviewRes : RealTimeAnalysis.Response DashboardPage.Overview)
    (metricsRes : RealTimeAnalysis.Response DashboardPage.Metrics)
    (activityRes : RealTimeAnalysis.Response (list DashboardPage.Activity))
    (st : DashboardPage.State) :
  let st' :=
    DashboardPage.fetchDashboardData
      (RealTimeAnalysis.Fulfilled overviewRes)
      (RealTimeAnalysis.Fulfilled metricsRes)
      (RealTimeAnalysis.Fulfilled activityRes) st in
  st' = {| DashboardPage.overview := RealTimeAnalysis.data overviewRes;
           DashboardPage.metrics := RealTimeAnalysis.data metricsRes;
           DashboardPage.activity := RealTimeAnalysis.data activityRes;
           DashboardPage.loading := false;
           DashboardPage.toasts := DashboardPage.toasts st;
           DashboardPage.console := DashboardPage.console st |} /\
  (RealTimeAnalysis.data metricsRes = None ->
   DashboardPage.riskChartData st' = [] /\
   DashboardPage.sentimentChartData st' = []) /\
  (DashboardPage.activityRows st' = None <->
   RealTimeAnalysis.data activityRes = None).
Proof.
  cbv zeta. unfold DashboardPage.fetchDashboardData,
    DashboardPage.riskChartData, DashboardPage.sentimentChartData,
    DashboardPage.activityRows. simpl.
  split; [reflexivity|]. split.
  - intros ->. split; reflexivity.
  - destruct (RealTimeAnalysis.data activityRes); split; intro H;
      try reflexivity; discriminate H.
Qed.

Lemma fetchDashboardData_fulfilled_witness :
  RealTimeAnalysis.data
    ({| RealTimeAnalysis.data := None |}
     : RealTimeAnalysis.Response DashboardPage.Metrics) = None /\
  DashboardPage.riskChartData
    (DashboardPage.fetchDashboardData
       (RealTimeAnalysis.Fulfilled
          {| RealTimeAnalysis.data := Some DashboardPage.mockOverview |})
       (RealTimeAnalysis.Fulfilled {| RealTimeAnalysis.data := None |})
       (RealTimeAnalysis.Fulfilled {| RealTimeAnalysis.data := None |})
       DashboardPage.initialState) = [] /\
  DashboardPage.activityRows
    (DashboardPage.fetchDashboardData
       (RealTimeAnalysis.Fulfilled
          {| RealTimeAnalysis.data := Some DashboardPage.mockOverview |})
       (RealTimeAnalysis.Fulfilled {| RealTimeAnalysis.data := None |})
       (RealTimeAnalysis.Fulfilled {| RealTimeAnalysis.data := None |})
       DashboardPage.initialState) = None.
Proof.
  destruct (fetchDashboardData_fulfilled
              {| RealTimeAnalysis.data := Some DashboardPage.mockOverview |}
              {| RealTimeAnalysis.data := None |}
              {| RealTimeAnalysis.data := None |}
              DashboardPage.initialState) as (_ & Hm & Ha).
  split; [reflexivity|]. split.
  - exact (proj1 (Hm eq_refl)).
  - exact (proj2 Ha eq_refl).
Defined.

(** X26.  An activity row carries at most one icon, and none unless its
    type is news, analysis or alert; a row of any other type is drawn on
    the red background of an alert, without an icon. *)
Theorem activity_row_icons (type : string) :
  (length (DashboardPage.activityIcons type) <= 1)%nat /\
  (DashboardPage.activityIcons type = [] <->
     type <> "news"%string /\ type <> "analysis"%string /\ type <> "alert"%string) /\
  (DashboardPage.activityIcons type = [] ->
     DashboardPage.activityBackground type = "bg-red-100"%string) /\
  (DashboardPage.activityBackground type = "bg-red-100"%string <->
     type <> "news"%string /\ type <> "analysis"%string).
Proof.
  unfold DashboardPage.activityIcons, DashboardPage.activityBackground.
  destruct (String.eqb type "news") eqn:E1;
    [apply String.eqb_eq in E1; subst type; simpl;
     repeat split; intros; try lia; try discriminate; try tauto;
     try (destruct H as [H _]; congruence)|].
  destruct (String.eqb type "analysis") eqn:E2;
    [apply String.eqb_eq in E2; subst type; simpl;
     repeat split; intros; try lia; try discriminate; try tauto;
     try (destruct H as (_ & H & _); congruence);
     try (destruct H as (_ & H); congruence)|].
  apply String.eqb_neq in E1, E2.
  destruct (String.eqb type "alert") eqn:E3; simpl.
  - apply String.eqb_eq in E3.
    repeat split; intros; try lia; try discriminate; try tauto;
      try (destruct H as (_ & _ & H); congruence).
  - apply String.eqb_neq in E3.
    repeat split; intros; try lia; try discriminate; try tauto.
Qed.
